(** * postman-gen: the static-analysis core (package [scan])

    A shallow embedding of [internal/scan]: the annotation parser, the
    route-call recogniser, the body detector, the project analyser and the
    endpoint de-duplicator of [ScanDir], followed by the properties of the
    specification that are stated about them.

    Conventions.
    - Go strings are byte strings ([string] of [ascii]); case mapping and
      white space are the ASCII ones.
    - A Go [map] that is only looked up is a [gmap]; a map that the code
      ranges over is a list of its entries in the order of that iteration,
      which Go leaves unspecified: statements quantify over it.
    - Header maps and tag slices of an [Endpoint] are references into a
      heap, so that sharing between endpoints can be stated. *)

From Stdlib Require Import Ascii String Floats.
From stdpp Require Import gmap strings list fin_maps.

Local Open Scope string_scope.
Local Open Scope list_scope.
Local Open Scope nat_scope.

(** The double quote, and [q]: a string written with single quotes for the
    double quotes of the Go source text. *)
Definition dquote : ascii := ascii_of_nat 34.

Fixpoint q (s : string) : string :=
  match s with
  | EmptyString => EmptyString
  | String c s' => String (if Ascii.eqb c "'" then dquote else c) (q s')
  end.

(** ** Package [strings] (the functions the scanner calls) *)
Module strings.

Definition is_upper (c : ascii) : bool :=
  let n := nat_of_ascii c in (65 <=? n) && (n <=? 90).
Definition is_lower (c : ascii) : bool :=
  let n := nat_of_ascii c in (97 <=? n) && (n <=? 122).
Definition is_digit (c : ascii) : bool :=
  let n := nat_of_ascii c in (48 <=? n) && (n <=? 57).
Definition is_letter (c : ascii) : bool := is_upper c || is_lower c.

(** unicode.IsSpace on ASCII: tab, newline, vertical tab, form feed,
    carriage return, space. *)
Definition is_space (c : ascii) : bool :=
  let n := nat_of_ascii c in ((9 <=? n) && (n <=? 13)) || (n =? 32).

Definition upper_char (c : ascii) : ascii :=
  if is_lower c then ascii_of_nat (nat_of_ascii c - 32) else c.
Definition lower_char (c : ascii) : ascii :=
  if is_upper c then ascii_of_nat (nat_of_ascii c + 32) else c.

Fixpoint map_chars (f : ascii -> ascii) (s : string) : string :=
  match s with
  | EmptyString => EmptyString
  | String c s' => String (f c) (map_chars f s')
  end.

Definition ToUpper : string -> string := map_chars upper_char.
Definition ToLower : string -> string := map_chars lower_char.

Definition HasPrefix (s pre : string) : bool := String.prefix pre s.

Fixpoint drop (n : nat) (s : string) : string :=
  match n, s with
  | S n', String _ s' => drop n' s'
  | _, _ => s
  end.

Fixpoint take (n : nat) (s : string) : string :=
  match n, s with
  | S n', String c s' => String c (take n' s')
  | _, _ => EmptyString
  end.

Definition HasSuffix (s suf : string) : bool :=
  (String.length suf <=? String.length s)
  && String.eqb (drop (String.length s - String.length suf) s) suf.

Definition TrimPrefix (s pre : string) : string :=
  if HasPrefix s pre then drop (String.length pre) s else s.

Definition TrimSuffix (s suf : string) : string :=
  if HasSuffix s suf then take (String.length s - String.length suf) s else s.

Fixpoint Contains (s sub : string) : bool :=
  String.prefix sub s
  || match s with
     | EmptyString => false
     | String _ s' => Contains s' sub
     end.

(** strings.Index: the byte offset of the first occurrence. *)
Fixpoint Index (s sub : string) : option nat :=
  if String.prefix sub s then Some 0
  else match s with
       | EmptyString => None
       | String _ s' => S <$> Index s' sub
       end.

(** strings.Count for a non-empty [sub]: non-overlapping occurrences
    ([skip] is the number of bytes of the last occurrence still to pass). *)
Fixpoint count_from (skip : nat) (s sub : string) : nat :=
  match s with
  | EmptyString => 0
  | String _ s' =>
      match skip with
      | S k => count_from k s' sub
      | O => if String.prefix sub s
             then S (count_from (String.length sub - 1) s' sub)
             else count_from 0 s' sub
      end
  end.
Definition Count (s sub : string) : nat := count_from 0 s sub.

Definition EqualFold (s t : string) : bool := String.eqb (ToLower s) (ToLower t).

Fixpoint trim_left (p : ascii -> bool) (s : string) : string :=
  match s with
  | String c s' => if p c then trim_left p s' else s
  | EmptyString => EmptyString
  end.

(** Trailing bytes satisfying [p] are removed: a byte stays when it fails
    [p] or something after it stays. *)
Fixpoint trim_right (p : ascii -> bool) (s : string) : string :=
  match s with
  | EmptyString => EmptyString
  | String c s' =>
      match trim_right p s' with
      | EmptyString => if p c then EmptyString else String c EmptyString
      | r => String c r
      end
  end.

Definition TrimSpace (s : string) : string :=
  trim_right is_space (trim_left is_space s).

Fixpoint mem_char (c : ascii) (cutset : string) : bool :=
  match cutset with
  | EmptyString => false
  | String d r => Ascii.eqb c d || mem_char c r
  end.

Definition Trim (s cutset : string) : string :=
  trim_right (fun c => mem_char c cutset) (trim_left (fun c => mem_char c cutset) s).

(** strings.Split for a one-byte separator. *)
Fixpoint Split (s : string) (sep : ascii) : list string :=
  match s with
  | EmptyString => [EmptyString]
  | String c s' =>
      if Ascii.eqb c sep then EmptyString :: Split s' sep
      else match Split s' sep with
           | x :: r => String c x :: r
           | [] => [String c EmptyString]
           end
  end.

Definition Join (l : list string) (sep : string) : string := String.concat sep l.

(** strings.Title: the first letter of every word is upper-cased; a word
    starts after a separator (anything but a letter, a digit or an
    underscore, on ASCII). *)
Definition is_separator (c : ascii) : bool :=
  negb (is_letter c || is_digit c || Ascii.eqb c "_")
  && (nat_of_ascii c <? 128).

Fixpoint title_from (prev : ascii) (s : string) : string :=
  match s with
  | EmptyString => EmptyString
  | String c s' =>
      String (if is_separator prev then upper_char c else c) (title_from c s')
  end.
Definition Title (s : string) : string := title_from " " s.

End strings.

(** ** Package [regexp]: a backtracking matcher

    Go's [regexp] gives the leftmost match and, among the matches that start
    there, the one a backtracking search finds first (greedy operators try
    the longer alternative first).  [exec] is that search, written with a
    success continuation; [Star] may only loop after consuming input, which
    bounds it by the length of the text. *)
Module regexp.

Inductive re : Type :=
| Eps
| Cls (p : ascii -> bool)
| Cat (a b : re)
| Alt (a b : re)
| Star (a : re)
| Group (i : nat) (a : re)
| EndText.

Definition set_group (i : nat) (v : string) (c : list string) : list string :=
  <[i := v]> c.

Fixpoint exec {R : Type} (r : re) (s : string) (c : list string)
    (k : string -> list string -> option R) : option R :=
  match r with
  | Eps => k s c
  | Cls p =>
      match s with
      | String a s' => if p a then k s' c else None
      | EmptyString => None
      end
  | Cat a b => exec a s c (fun s' c' => exec b s' c' k)
  | Alt a b =>
      match exec a s c k with
      | Some res => Some res
      | None => exec b s c k
      end
  | Star a =>
      (fix star (fuel : nat) (s : string) (c : list string) : option R :=
         match fuel with
         | O => k s c
         | S fuel' =>
             match exec a s c (fun s' c' =>
                      if String.length s' <? String.length s
                      then star fuel' s' c' else None) with
             | Some res => Some res
             | None => k s c
             end
         end) (String.length s) s c
  | Group i a =>
      exec a s c (fun s' c' =>
        k s' (set_group i (strings.take (String.length s - String.length s') s) c'))
  | EndText =>
      match s with
      | EmptyString => k s c
      | String _ _ => None
      end
  end.

(** A compiled expression: the term and its number of capture groups. *)
Record Regexp : Type := MustCompile { prog : re; numSubexp : nat }.

(** The match that starts at the head of [s], if there is one. *)
Definition match_here (r : Regexp) (s : string) : option (list string) :=
  exec (Group 0 (prog r)) s (replicate (S (numSubexp r)) EmptyString)
       (fun _ c => Some c).

(** FindStringSubmatch: the leftmost match; element 0 is the matched text,
    element [i] the text of group [i] (empty when the group took no part);
    [None] is Go's nil slice. *)
Fixpoint FindStringSubmatch (r : Regexp) (s : string) : option (list string) :=
  match match_here r s with
  | Some c => Some c
  | None =>
      match s with
      | EmptyString => None
      | String _ s' => FindStringSubmatch r s'
      end
  end.

Definition MatchString (r : Regexp) (s : string) : bool :=
  match FindStringSubmatch r s with Some _ => true | None => false end.

(** *** Syntax used by the scanner's expressions, all under [(?i)] *)
Definition plus (a : re) : re := Cat a (Star a).
Definition opt (a : re) : re := Alt a Eps.

(** a literal byte, letters in either case *)
Definition chr (a : ascii) : re :=
  Cls (fun x => Ascii.eqb (strings.lower_char x) (strings.lower_char a)).

Fixpoint lit (s : string) : re :=
  match s with
  | EmptyString => Eps
  | String a EmptyString => chr a
  | String a s' => Cat (chr a) (lit s')
  end.

(** [\s] is [[\t\n\f\r ]] *)
Definition perl_space (a : ascii) : bool :=
  let n := nat_of_ascii a in
  (n =? 9) || (n =? 10) || (n =? 12) || (n =? 13) || (n =? 32).
Definition ws : re := Cls perl_space.
Definition non_ws : re := Cls (fun a => negb (perl_space a)).
(** [.] is any byte but the newline *)
Definition any : re := Cls (fun a => negb (nat_of_ascii a =? 10)).
(** [[A-Z]] under [(?i)] *)
Definition letter : re := Cls strings.is_letter.

Fixpoint seq (l : list re) : re :=
  match l with
  | [] => Eps
  | [a] => a
  | a :: l' => Cat a (seq l')
  end.

End regexp.

(** ** Package [go/ast] and [go/token]: syntax trees as the scanner sees them

    One type of nodes.  The kinds that some type switch or type assertion of
    the scanner names have their own constructor, with the fields the scanner
    reads; every other kind of node is [Other], with its children in the order
    of [ast.Walk].  Identifiers that a node holds as a name ([Sel], [Names])
    are leaves that no visitor of the scanner reacts to; they are kept as
    strings. *)
Module ast.

Inductive Token : Type := STRING | INT | FLOAT | IMAG | CHAR.

#[local] Unset Elimination Schemes.
Inductive Node : Type :=
| Ident (Name : string)
| BasicLit (Kind : Token) (Value : string)
| SelectorExpr (X : Node) (Sel : string)
| CallExpr (Fun : Node) (Args : list Node)
| UnaryExpr (Op : string) (X : Node)
| StarExpr (X : Node)
| ArrayType (Elt : Node)
| MapType (Key Value : Node)
| StructType (Fields : list Node)
| Field (Names : list string) (Type_ : Node) (Tag : option string)
| CompositeLit (Type_ : option Node) (Elts : list Node)
| GenDecl (Specs : list Node)
| ValueSpec (Names : list string) (Type_ : option Node) (Values : list Node)
| TypeSpec (Name : string) (Type_ : Node)
| AssignStmt (Lhs Rhs : list Node)
| FuncDecl (Name : string) (Body : option Node)
| Other (kind : string) (children : list Node).
#[local] Set Elimination Schemes.

(** Statements and expressions the scanner does not tell apart. *)
Definition ExprStmt (x : Node) : Node := Other "ExprStmt" [x].
Definition DeclStmt (d : Node) : Node := Other "DeclStmt" [d].
Definition BlockStmt (l : list Node) : Node := Other "BlockStmt" l.
Definition ReturnStmt (l : list Node) : Node := Other "ReturnStmt" l.
Definition IfStmt (init cond body : Node) : Node := Other "IfStmt" [init; cond; body].
Definition BinaryExpr (x y : Node) : Node := Other "BinaryExpr" [x; y].
Definition InterfaceType : Node := Other "InterfaceType" [].

Definition opt_list (o : option Node) : list Node :=
  match o with Some n => [n] | None => [] end.

(** The children of a node, in the order [ast.Walk] visits them. *)
Definition children (n : Node) : list Node :=
  match n with
  | Ident _ | BasicLit _ _ => []
  | SelectorExpr x _ => [x]
  | CallExpr f args => f :: args
  | UnaryExpr _ x | StarExpr x | ArrayType x => [x]
  | MapType k v => [k; v]
  | StructType fs => fs
  | Field _ t _ => [t]
  | CompositeLit t elts => opt_list t ++ elts
  | GenDecl specs => specs
  | ValueSpec _ t vs => opt_list t ++ vs
  | TypeSpec _ t => [t]
  | AssignStmt l r => l ++ r
  | FuncDecl _ b => opt_list b
  | Other _ cs => cs
  end.

(** ast.Inspect, for a visitor that updates a state [S]: [f n s] is the
    state after the call of the visitor on [n], and whether it returned
    true (descend into the children of [n]).  The scanner's visitors do
    nothing on the closing call [f(nil)]. *)
Section Inspect.
Context {S : Type} (f : Node -> S -> bool * S).

Fixpoint Inspect (n : Node) (s : S) {struct n} : S :=
  let walk := fix walk (l : list Node) (s : S) {struct l} : S :=
    match l with
    | [] => s
    | x :: l' => walk l' (Inspect x s)
    end in
  let walk_opt (o : option Node) (s : S) : S :=
    match o with Some x => Inspect x s | None => s end in
  let (descend, s1) := f n s in
  if descend then
    match n with
    | Ident _ | BasicLit _ _ => s1
    | SelectorExpr x _ => Inspect x s1
    | CallExpr fn args => walk args (Inspect fn s1)
    | UnaryExpr _ x | StarExpr x | ArrayType x => Inspect x s1
    | MapType k v => Inspect v (Inspect k s1)
    | StructType fs => walk fs s1
    | Field _ t _ => Inspect t s1
    | CompositeLit t elts => walk elts (walk_opt t s1)
    | GenDecl specs => walk specs s1
    | ValueSpec _ t vs => walk vs (walk_opt t s1)
    | TypeSpec _ t => Inspect t s1
    | AssignStmt l r => walk r (walk l s1)
    | FuncDecl _ b => walk_opt b s1
    | Other _ cs => walk cs s1
    end
  else s1.

Definition InspectList (l : list Node) (s : S) : S :=
  fold_left (fun s x => Inspect x s) l s.
End Inspect.

End ast.

(** ** Package [strconv]: Unquote on string literals

    The literal is the source text with its quotes.  Interpreted literals
    with the one-character escapes and raw literals are covered; a literal
    with a numeric or Unicode escape is outside this fragment and is given
    the error result. *)
Module strconv.

Definition escape (e : ascii) : option ascii :=
  let n := nat_of_ascii e in
  if n =? 97 then Some (ascii_of_nat 7)          (* escape a *)
  else if n =? 98 then Some (ascii_of_nat 8)     (* escape b *)
  else if n =? 102 then Some (ascii_of_nat 12)   (* escape f *)
  else if n =? 110 then Some (ascii_of_nat 10)   (* escape n *)
  else if n =? 114 then Some (ascii_of_nat 13)   (* escape r *)
  else if n =? 116 then Some (ascii_of_nat 9)    (* escape t *)
  else if n =? 118 then Some (ascii_of_nat 11)   (* escape v *)
  else if n =? 92 then Some e                    (* backslash *)
  else if n =? 34 then Some e                    (* double quote *)
  else None.

(** the text between the double quotes, up to and including the closing one *)
Fixpoint interpreted (s : string) : option string :=
  match s with
  | EmptyString => None
  | String c s' =>
      if Ascii.eqb c dquote then
        match s' with EmptyString => Some EmptyString | _ => None end
      else if nat_of_ascii c =? 10 then None
      else if nat_of_ascii c =? 92 then
        match s' with
        | String e s'' =>
            match escape e, interpreted s'' with
            | Some x, Some r => Some (String x r)
            | _, _ => None
            end
        | EmptyString => None
        end
      else String c <$> interpreted s'
  end.

(** the text between the back quotes: carriage returns are dropped *)
Fixpoint raw (s : string) : option string :=
  match s with
  | EmptyString => None
  | String c s' =>
      if Ascii.eqb c "`" then
        match s' with EmptyString => Some EmptyString | _ => None end
      else if nat_of_ascii c =? 13 then raw s'
      else String c <$> raw s'
  end.

Definition Unquote (s : string) : option string :=
  match s with
  | String c s' =>
      if Ascii.eqb c dquote then interpreted s'
      else if Ascii.eqb c "`" then raw s'
      else None
  | EmptyString => None
  end.

End strconv.

(** ** Package [scan]: data model *)

(** body_detector.go *)
Module BodyDetectionResult.
Record t : Type := mk { HasBody : bool; BodyExample : string; StructName : string }.
End BodyDetectionResult.

Module StructFieldInfo.
Record t : Type := mk { Name : string; Type_ : string; JSONTag : string; Required : bool }.
End StructFieldInfo.

Module StructInfo.
Record t : Type := mk { Name : string; Fields : list StructFieldInfo.t }.
End StructInfo.

(** project_analyzer.go.  [Comments] and [Tags] of a struct definition,
    [Path] and [Files] of a package, and the module name and the interface,
    function and type tables of the analysis are written by the analyser and
    read by nothing; they are left out. *)
Module StructDefinition.
Record t : Type := mk {
  Name : string;
  Fields : list StructFieldInfo.t;
  Package : string;
  File : string;
  IsExported : bool }.
End StructDefinition.

Module PackageInfo.
Record t : Type := mk {
  Name : string;
  Imports : list string;
  IsMain : bool }.
End PackageInfo.

Module ArchitecturePattern.
Record t : Type := mk {
  Type_ : string;
  Layers : list string;
  DTOPatterns : list string;
  Confidence : float }.
End ArchitecturePattern.

(** A Go map the code ranges over: its entries, keys distinct. *)
Definition entries (V : Type) : Type := list (string * V).

Fixpoint get {V : Type} (m : entries V) (k : string) : option V :=
  match m with
  | [] => None
  | (k', v) :: m' => if String.eqb k' k then Some v else get m' k
  end.

(** [m[k] = v]: the entry for [k] is replaced, or a new one is made. *)
Fixpoint put {V : Type} (m : entries V) (k : string) (v : V) : entries V :=
  match m with
  | [] => [(k, v)]
  | (k', v') :: m' => if String.eqb k' k then (k, v) :: m' else (k', v') :: put m' k v
  end.

Module ProjectAnalysis.
Record t : Type := mk {
  Structs : entries StructDefinition.t;
  Packages : entries PackageInfo.t;
  ArchPattern : ArchitecturePattern.t }.
End ProjectAnalysis.

(** scan.go *)
Module GraphQLInfo.
Record t : Type := mk {
  Operation : string; Schema : string; Query : string; Variables : string }.
End GraphQLInfo.

(** The anonymous struct of a route declaration in scanAnnotationsFromFile. *)
Module route.
Record t : Type := mk {
  method : string; path : string; desc : string; routeType : string;
  operation : string }.
End route.

(** References: a header map or the array under a tag slice. *)
Definition loc : Type := nat.

Inductive Obj : Type :=
| MapObj (m : gmap string string)
| SliceObj (l : list string).

Abbreviation Heap := (list Obj).

Definition alloc (o : Obj) (h : Heap) : loc * Heap := (List.length h, h ++ [o]).

(** a nil map reads as the empty map, a nil slice as the empty slice *)
Definition load_map (h : Heap) (r : option loc) : gmap string string :=
  match r with
  | Some l => match h !! l with Some (MapObj m) => m | _ => ∅ end
  | None => ∅
  end.

Definition load_slice (h : Heap) (r : option loc) : list string :=
  match r with
  | Some l => match h !! l with Some (SliceObj ts) => ts | _ => [] end
  | None => []
  end.

(** [m[k] = v] through a reference *)
Definition store_map (l : loc) (k v : string) (h : Heap) : Heap :=
  match h !! l with
  | Some (MapObj m) => <[l := MapObj (<[k := v]> m)]> h
  | _ => h
  end.

(** The [GraphQL] pointer is modelled by the value it points to: the
    annotation parser writes through it only before the first endpoint that
    holds it is made. *)
Record Endpoint : Type := mkEndpoint {
  Method : string;
  Path : string;
  SourceFile : string;
  Handler : string;
  Desc : string;
  Headers : option loc;
  BodyRaw : string;
  Tags : option loc;
  Type_ : string;
  GraphQL : option GraphQLInfo.t }.

(** The zero value of each field a composite literal leaves out. *)
Definition Endpoint0 : Endpoint :=
  mkEndpoint "" "" "" "" "" None "" None "" None.

Definition verbSet : gset string :=
  {[ "GET"; "POST"; "PUT"; "DELETE"; "PATCH"; "HEAD"; "OPTIONS" ]}.

Definition in_verbSet (s : string) : bool := bool_decide (s ∈ verbSet).

(** ** A parsed file and the directory tree

    [ast.File]: the package name, the import paths (the literals, with their
    quotes), the text of each comment group ([CommentGroup.Text]) and the
    declarations. *)
Record File : Type := mkFile {
  FileName : string;
  FileImports : list string;
  FileComments : list string;
  FileDecls : list ast.Node }.

(** Package [path/filepath]: WalkDir over a tree whose regular files carry
    the result of [parser.ParseFile] on them ([None]: the file does not
    parse).  The entries of a directory are listed in the order WalkDir
    reads them. *)
Module filepath.

#[local] Unset Elimination Schemes.
Inductive DirEntry : Type :=
| RegularFile (name : string) (parsed : option File)
| Directory (name : string) (entries : list DirEntry).
#[local] Set Elimination Schemes.

Definition Name (d : DirEntry) : string :=
  match d with RegularFile n _ | Directory n _ => n end.

Definition IsDir (d : DirEntry) : bool :=
  match d with Directory _ _ => true | RegularFile _ _ => false end.

(** what the callback returns: nil, SkipDir, or an error (with its text) *)
Inductive error : Type := Nil | SkipDir | Err (msg : string).

Definition Join (dir name : string) : string := dir +:+ "/" +:+ name.

Section WalkDir.
Context {S : Type} (fn : string -> DirEntry -> S -> S * error).

Fixpoint walkDir (path : string) (d : DirEntry) (s : S) {struct d} : S * error :=
  let (s1, err) := fn path d s in
  match d with
  | RegularFile _ _ => (s1, err)
  | Directory _ entries =>
      match err with
      | Nil =>
          (fix loop (l : list DirEntry) (s : S) {struct l} : S * error :=
             match l with
             | [] => (s, Nil)
             | d1 :: l' =>
                 let (s2, err1) := walkDir (Join path (Name d1)) d1 s in
                 match err1 with
                 | Nil => loop l' s2
                 | SkipDir => (s2, Nil)
                 | Err _ => (s2, err1)
                 end
             end) entries s1
      | SkipDir => (s1, Nil)
      | Err _ => (s1, err)
      end
  end.

Definition WalkDir (root : string) (d : DirEntry) (s : S) : S * error :=
  let (s', err) := walkDir root d s in
  (s', match err with SkipDir => Nil | _ => err end).
End WalkDir.

End filepath.

Import ast.

(** [for _, x := range l { if ... { return ... } }]: the first hit. *)
Fixpoint first_match {A B : Type} (f : A -> option B) (l : list A) : option B :=
  match l with
  | [] => None
  | x :: l' => match f x with Some y => Some y | None => first_match f l' end
  end.

(** ** body_detector.go *)

Definition checkGinJSONBinding (call : Node) : bool :=
  match call with
  | CallExpr (SelectorExpr _ methodName) _ =>
      String.eqb methodName "ShouldBindJSON"
      || String.eqb methodName "BindJSON"
      || String.eqb methodName "ShouldBind"
      || String.eqb methodName "Bind"
  | _ => false
  end.

Definition checkJSONDecoder (call : Node) : bool :=
  match call with
  | CallExpr (SelectorExpr x sel) _ =>
      if String.eqb sel "Decode" then
        match x with
        | CallExpr (SelectorExpr _ innerSel) _ => String.eqb innerSel "NewDecoder"
        | _ => false
        end
      else false
  | _ => false
  end.

Definition checkJSONUnmarshal (call : Node) : bool :=
  match call with
  | CallExpr (SelectorExpr (Ident name) sel) _ =>
      String.eqb name "json" && String.eqb sel "Unmarshal"
  | _ => false
  end.

Definition checkIOReadAll (call : Node) : bool :=
  match call with
  | CallExpr (SelectorExpr (Ident name) sel) _ =>
      String.eqb name "io" && String.eqb sel "ReadAll"
  | _ => false
  end.

Definition generateBodyByVariableName (varName : string) : string :=
  let lowerName := strings.ToLower varName in
  if strings.Contains lowerName "user" then
    q "{'name':'string','email':'string','id':'string'}"
  else if strings.Contains lowerName "create" || strings.Contains lowerName "post" then
    q "{'name':'string','value':'string','type':'string'}"
  else if strings.Contains lowerName "update" || strings.Contains lowerName "put"
          || strings.Contains lowerName "patch" then
    q "{'id':'string','name':'string','value':'string'}"
  else if strings.Contains lowerName "delete" then
    q "{'id':'string','reason':'string'}"
  else if strings.Contains lowerName "request" || strings.Contains lowerName "req" then
    q "{'data':'string','parameters':{}}"
  else
    q "{'id':'string','name':'string','value':'string','timestamp':'2024-01-01T00:00:00Z'}".

Fixpoint getTypeString (expr : Node) : string :=
  match expr with
  | Ident name => name
  | SelectorExpr x sel => getTypeString x +:+ "." +:+ sel
  | ArrayType elt => "[]" +:+ getTypeString elt
  | MapType k v => "map[" +:+ getTypeString k +:+ "]" +:+ getTypeString v
  | StarExpr x => "*" +:+ getTypeString x
  | _ => "interface{}"
  end.

Definition extractJSONTag (tag : string) : string :=
  let parts := strings.Split tag " " in
  default "" (first_match (fun part =>
    if strings.HasPrefix part "json:" then
      let jsonPart := strings.TrimPrefix part "json:" in
      let jsonPart := strings.Trim jsonPart (String dquote "") in
      let jsonPart := match strings.Index jsonPart "," with
                      | Some idx => strings.take idx jsonPart
                      | None => jsonPart
                      end in
      if negb (String.eqb jsonPart "-") && negb (String.eqb jsonPart "")
      then Some jsonPart else None
    else None) parts).

(** [fields] is [structType.Fields.List]; its elements are [Field] nodes. *)
Definition analyzeInlineStruct (fields : list Node) (name : string) : StructInfo.t :=
  StructInfo.mk name
    (omap (fun field =>
       match field with
       | Field names type tag =>
           let fname := match names with n :: _ => n | [] => "" end in
           let jsonTag :=
             match tag with
             | Some value =>
                 let tag := strings.Trim value "`" in
                 if strings.Contains tag "json:" then extractJSONTag tag else ""
             | None => ""
             end in
           let jsonTag := if String.eqb jsonTag "" then strings.ToLower fname else jsonTag in
           Some (StructFieldInfo.mk fname (getTypeString type) jsonTag true)
       | _ => None
       end) fields).

(** The visitor of scanStructUsage: [structInfo] is the captured variable. *)
Definition scanStructUsage_visit (n : Node) (structInfo : option StructInfo.t)
    : bool * option StructInfo.t :=
  match n with
  | GenDecl specs =>
      match first_match (fun spec =>
              match spec with
              | ValueSpec _ (Some (StructType fields)) _ => Some fields
              | _ => None
              end) specs with
      | Some fields => (false, Some (analyzeInlineStruct fields "InlineStruct"))
      | None => (true, structInfo)
      end
  | AssignStmt _ rhs =>
      match first_match (fun r =>
              match r with
              | CompositeLit (Some (StructType fields)) _ => Some fields
              | _ => None
              end) rhs with
      | Some fields => (false, Some (analyzeInlineStruct fields "InlineStruct"))
      | None => (true, structInfo)
      end
  | _ => (true, structInfo)
  end.

(** [body] is [fn.Body], which the caller has found not nil. *)
Definition scanStructUsage (body : Node) : option StructInfo.t :=
  Inspect scanStructUsage_visit body None.

Fixpoint generateValueForType (goType : string) : string :=
  if String.eqb goType "string" then q "'string'"
  else if String.eqb goType "int" || String.eqb goType "int32" || String.eqb goType "int64"
          || String.eqb goType "uint" || String.eqb goType "uint32"
          || String.eqb goType "uint64" then "0"
  else if String.eqb goType "float32" || String.eqb goType "float64" then "0.0"
  else if String.eqb goType "bool" then "false"
  else if strings.HasPrefix goType "[]" then
    match goType with
    | String _ (String _ elemType) => "[" +:+ generateValueForType elemType +:+ "]"
    | _ => "[]"
    end
  else if strings.HasPrefix goType "map[" then "{}"
  else if String.eqb goType "interface{}" || String.eqb goType "any" then q "'string'"
  else q "'string'".

(** [fmt.Sprintf] of a key and its value *)
Definition jsonPair (key value : string) : string :=
  String dquote key +:+ String dquote ":" +:+ value.

Definition generateJSONFromStruct (structInfo : StructInfo.t) : string :=
  if List.length (StructInfo.Fields structInfo) =? 0 then "{}"
  else
    let jsonPairs :=
      map (fun field =>
             jsonPair (StructFieldInfo.JSONTag field)
                      (generateValueForType (StructFieldInfo.Type_ field)))
          (StructInfo.Fields structInfo) in
    "{" +:+ strings.Join jsonPairs "," +:+ "}".

Definition isStructNameMatch (varName structName : string) : bool :=
  let suffixes := ["request"; "req"; "dto"; "model"; "entity"; "response"; "resp"] in
  let cleanStructName :=
    default structName
      (first_match (fun suffix =>
         if strings.HasSuffix structName suffix
         then Some (strings.TrimSuffix structName suffix) else None) suffixes) in
  strings.Contains varName cleanStructName || strings.Contains cleanStructName varName.

Definition generateJSONFromProjectStruct (structDef : StructDefinition.t) : string :=
  if List.length (StructDefinition.Fields structDef) =? 0 then "{}"
  else
    let jsonPairs :=
      omap (fun field =>
              if String.eqb (StructFieldInfo.JSONTag field) "-" then None
              else
                let value := generateValueForType (StructFieldInfo.Type_ field) in
                let jsonTag :=
                  if String.eqb (StructFieldInfo.JSONTag field) ""
                  then strings.ToLower (StructFieldInfo.Name field)
                  else StructFieldInfo.JSONTag field in
                Some (jsonPair jsonTag value))
           (StructDefinition.Fields structDef) in
    "{" +:+ strings.Join jsonPairs "," +:+ "}".

(** ** The scanner proper

    [range m] is the order in which a [for ... range] statement of this run
    goes over the entries of the map [m]; Go does not specify it. *)
Section Scanner.

Variable range : forall V : Type, entries V -> entries V.
Arguments range {V} _.

(** The condition of both loops of generateBodyFromProjectAnalysis. *)
Definition structMatches (varName : string) (structDef : StructDefinition.t) : bool :=
let lowerStructName := strings.ToLower (StructDefinition.Name structDef) in
let lowerVarName := strings.ToLower varName in
strings.Contains lowerStructName lowerVarName
|| strings.Contains lowerVarName lowerStructName
|| isStructNameMatch lowerVarName lowerStructName.

(** the argument is a unary expression whose operand is an identifier *)
Definition unaryIdent (arg : option Node) : option string :=
match arg with
| Some (UnaryExpr _ (Ident name)) => Some name
| _ => None
end.

Definition matchingStruct (analysis : ProjectAnalysis.t) (varName : string)
  : option StructDefinition.t :=
first_match (fun kv : string * StructDefinition.t =>
               if structMatches varName kv.2 then Some kv.2 else None)
            (range (ProjectAnalysis.Structs analysis)).

Definition generateBodyFromProjectAnalysis (call : Node) (analysis : ProjectAnalysis.t)
  : string :=
match call with
| CallExpr _ args =>
    (* the first argument *)
    let r0 := match unaryIdent (args !! 0) with
              | Some name => (matchingStruct analysis name, name)
              | None => (None, "")
              end in
    match r0.1 with
    | Some structDef => generateJSONFromProjectStruct structDef
    | None =>
        (* for json.Unmarshal, the second argument is the target *)
        let r1 := match unaryIdent (args !! 1) with
                  | Some name => (matchingStruct analysis name, name)
                  | None => (None, r0.2)
                  end in
        match r1.1 with
        | Some structDef => generateJSONFromProjectStruct structDef
        | None =>
            let targetTypeName := r1.2 in
            if String.eqb targetTypeName "" then ""
            else
              match first_match (fun dtoPattern =>
                      if strings.Contains (strings.ToLower dtoPattern)
                                          (strings.ToLower targetTypeName)
                      then get (ProjectAnalysis.Structs analysis) dtoPattern
                      else None)
                    (ArchitecturePattern.DTOPatterns (ProjectAnalysis.ArchPattern analysis)) with
              | Some structDef => generateJSONFromProjectStruct structDef
              | None => ""
              end
        end
    end
| _ => ""
end.

(** The last part of generateSmartBodyExample: the variable-name analysis
  of the first argument, else of the second, else the fixed shape. *)
Definition generateBodyFromArgs (call : Node) : string :=
match call with
| CallExpr _ args =>
    match unaryIdent (args !! 0), unaryIdent (args !! 1) with
    | Some name, _ => generateBodyByVariableName name
    | None, Some name => generateBodyByVariableName name
    | None, None => q "{'data':'string','parameters':{}}"
    end
| _ => q "{'data':'string','parameters':{}}"
end.

(** [g] is the package variable globalProjectAnalysis. *)
Definition generateSmartBodyExample (g : option ProjectAnalysis.t)
  (call : Node) (structInfo : option StructInfo.t) : string :=
let fromProject :=
  match g with
  | Some analysis => generateBodyFromProjectAnalysis call analysis
  | None => ""
  end in
if negb (String.eqb fromProject "") then fromProject
else
  match structInfo with
  | Some info =>
      if 0 <? List.length (StructInfo.Fields info) then generateJSONFromStruct info
      else generateBodyFromArgs call
  | None => generateBodyFromArgs call
  end.

Definition noBody : BodyDetectionResult.t := BodyDetectionResult.mk false "" "".

(** The visitor of DetectJSONBody: [result] is the captured variable. *)
Definition DetectJSONBody_visit (g : option ProjectAnalysis.t)
  (structInfo : option StructInfo.t) (n : Node) (result : BodyDetectionResult.t)
  : bool * BodyDetectionResult.t :=
let found :=
  BodyDetectionResult.mk true (generateSmartBodyExample g n structInfo)
                         (BodyDetectionResult.StructName result) in
match n with
| CallExpr _ _ =>
    if checkGinJSONBinding n then (false, found)
    else if checkJSONDecoder n then (false, found)
    else if checkJSONUnmarshal n then (false, found)
    else if checkIOReadAll n then (false, found)
    else (true, result)
| _ => (true, result)
end.

Definition DetectJSONBody (g : option ProjectAnalysis.t) (fn : Node)
  : BodyDetectionResult.t :=
match fn with
| FuncDecl _ (Some body) =>
    let structInfo := scanStructUsage body in
    Inspect (DetectJSONBody_visit g structInfo) body noBody
| _ => noBody
end.

Definition DetectBodyFromFunction (g : option ProjectAnalysis.t) (fn : Node) : string :=
let result := DetectJSONBody g fn in
if BodyDetectionResult.HasBody result then BodyDetectionResult.BodyExample result
else "".

(** ** project_analyzer.go *)

Definition analyzeStructField (field : Node) : list StructFieldInfo.t :=
match field with
| Field names type tag =>
    let fieldType := getTypeString type in
    match names with
    | [] => [StructFieldInfo.mk (getTypeString type) fieldType "" true]
    | _ =>
        map (fun name =>
               let jsonTag :=
                 match tag with
                 | Some value =>
                     let t := extractJSONTag (strings.Trim value "`") in
                     if String.eqb t "" then strings.ToLower name else t
                 | None => strings.ToLower name
                 end in
               StructFieldInfo.mk name fieldType jsonTag true) names
    end
| _ => []
end.

(** ast.IsExported: the name begins with an upper-case letter *)
Definition IsExported (name : string) : bool :=
match name with
| String c _ => strings.is_upper c
| EmptyString => false
end.

Definition analyzeTypeSpec (spec : Node) (packageName filePath : string)
  (analysis : ProjectAnalysis.t) : ProjectAnalysis.t :=
match spec with
| TypeSpec typeName (StructType fields) =>
    let qualifiedName := packageName +:+ "." +:+ typeName in
    let structDef :=
      StructDefinition.mk typeName (concat (map analyzeStructField fields))
                          packageName filePath (IsExported typeName) in
    ProjectAnalysis.mk
      (put (ProjectAnalysis.Structs analysis) qualifiedName structDef)
      (ProjectAnalysis.Packages analysis)
      (ProjectAnalysis.ArchPattern analysis)
| _ => analysis
end.

Definition analyzeGenDecl (specs : list Node) (packageName filePath : string)
  (analysis : ProjectAnalysis.t) : ProjectAnalysis.t :=
fold_left (fun a spec => analyzeTypeSpec spec packageName filePath a) specs analysis.

(** [path] of the file and the result of parsing it *)
Definition analyzeFile (filePath : string) (parsed : option File)
  (analysis : ProjectAnalysis.t) : option ProjectAnalysis.t :=
match parsed with
| None => None
| Some file =>
    let packageName := FileName file in
    let pkg0 :=
      match get (ProjectAnalysis.Packages analysis) packageName with
      | Some pkg => pkg
      | None => PackageInfo.mk packageName [] (String.eqb packageName "main")
      end in
    let pkg :=
      PackageInfo.mk (PackageInfo.Name pkg0)
        (PackageInfo.Imports pkg0
           ++ map (fun v => strings.Trim v (String dquote "")) (FileImports file))
        (PackageInfo.IsMain pkg0) in
    let analysis :=
      ProjectAnalysis.mk
        (ProjectAnalysis.Structs analysis)
        (put (ProjectAnalysis.Packages analysis) packageName pkg)
        (ProjectAnalysis.ArchPattern analysis) in
    Some (fold_left (fun a decl =>
                       match decl with
                       | GenDecl specs => analyzeGenDecl specs packageName filePath a
                       | _ => a
                       end) (FileDecls file) analysis)
end.

Definition shouldSkipDir (dirName : string) : bool :=
let skipDirs := ["vendor"; ".git"; ".vscode"; ".idea"; "node_modules";
                 "__pycache__"; ".pytest_cache"; "build"; "dist"] in
existsb (String.eqb dirName) skipDirs || strings.HasPrefix dirName ".".

(** The scores are Go's float64. *)
Local Open Scope float_scope.

(** One keyword family: a hit adds 1 to the score, every keyword 1 to the
  total. *)
Definition keywordHit (packages : list string) (pattern : string) : bool :=
existsb (fun pkg => strings.Contains (strings.ToLower pkg) pattern) packages.

Definition detectCleanArchitecture (packages : list string) : float :=
let cleanPatterns :=
  ["domain"; "entity"; "entities";
   "usecase"; "usecases"; "application";
   "repository"; "repositories"; "infrastructure";
   "handler"; "handlers"; "delivery"; "transport";
   "service"; "services"] in
let '(score, total) :=
  fold_left (fun (st : float * float) pattern =>
               let total := st.2 + 1 in
               if keywordHit packages pattern then (st.1 + 1, total) else (st.1, total))
            cleanPatterns (0, 0) in
if PrimFloat.eqb total 0 then 0 else score / total.

Definition detectMVC (packages : list string) : float :=
let mvcPatterns := ["model"; "view"; "controller"] in
let score :=
  fold_left (fun (score : float) pattern =>
               if keywordHit packages pattern then score + 1 else score)
            mvcPatterns 0 in
score / 3.

Definition detectLayeredArchitecture (packages : list string) : float :=
let layerPatterns :=
  ["api"; "web"; "http";
   "business"; "logic"; "service";
   "data"; "dal"; "persistence";
   "common"; "shared"; "utils"] in
let '(score, total) :=
  fold_left (fun (st : float * float) pattern =>
               let total := st.2 + 1 in
               if keywordHit packages pattern then (st.1 + 1, total) else (st.1, total))
            layerPatterns (0, 0) in
if PrimFloat.eqb total 0 then 0 else score / total.

Definition detectMicroservicePattern (analysis : ProjectAnalysis.t) : float :=
let packages := ProjectAnalysis.Packages analysis in
(* gRPC/protobuf usage *)
let score :=
  fold_left (fun (score : float) (kv : string * PackageInfo.t) =>
               fold_left (fun (score : float) imp =>
                            if strings.Contains imp "grpc" || strings.Contains imp "protobuf"
                            then score + 0x1.3333333333333p-2 (* 0.3 *) else score)
                         (PackageInfo.Imports kv.2) score)
            (range packages) 0 in
(* main package *)
let score :=
  match get packages "main" with
  | Some _ => score + 0x1.999999999999ap-3 (* 0.2 *)
  | None => score
  end in
(* config/environment patterns *)
let score :=
  fold_left (fun (score : float) (kv : string * PackageInfo.t) =>
               if strings.Contains (strings.ToLower kv.1) "config"
                  || strings.Contains (strings.ToLower kv.1) "env"
               then score + 0x1.999999999999ap-3 (* 0.2 *) else score)
            (range packages) score in
if PrimFloat.ltb 1 score then 1 else score.

Definition detectDTOPatterns (analysis : ProjectAnalysis.t) : list string :=
omap (fun kv : string * StructDefinition.t =>
        let lowerName := strings.ToLower kv.1 in
        if strings.HasSuffix lowerName "request"
           || strings.HasSuffix lowerName "req"
           || strings.HasSuffix lowerName "dto"
           || strings.HasSuffix lowerName "model"
           || strings.HasSuffix lowerName "entity"
           || strings.HasSuffix lowerName "response"
           || strings.HasSuffix lowerName "resp"
        then Some (StructDefinition.Name kv.2) else None)
     (range (ProjectAnalysis.Structs analysis)).

(** Assignments to the fields of [pattern]. *)
Definition setType (v : string) (p : ArchitecturePattern.t) : ArchitecturePattern.t :=
ArchitecturePattern.mk v (ArchitecturePattern.Layers p)
  (ArchitecturePattern.DTOPatterns p) (ArchitecturePattern.Confidence p).
Definition setConfidence (v : float) (p : ArchitecturePattern.t) : ArchitecturePattern.t :=
ArchitecturePattern.mk (ArchitecturePattern.Type_ p) (ArchitecturePattern.Layers p)
  (ArchitecturePattern.DTOPatterns p) v.

Definition detectArchitecturePattern (analysis : ProjectAnalysis.t)
  : ArchitecturePattern.t :=
let pattern := ArchitecturePattern.mk "unknown" [] [] 0 in
let packageNames :=
  omap (fun kv : string * PackageInfo.t =>
          if negb (String.eqb kv.1 "main") then Some kv.1 else None)
       (range (ProjectAnalysis.Packages analysis)) in
let cleanScore := detectCleanArchitecture packageNames in
let mvcScore := detectMVC packageNames in
let layeredScore := detectLayeredArchitecture packageNames in
let microserviceScore := detectMicroservicePattern analysis in
(* the pattern with the highest confidence *)
let maxScore := cleanScore in
let pattern := setType "clean" pattern in
let pattern := setConfidence cleanScore pattern in
let '(maxScore, pattern) :=
  if PrimFloat.ltb maxScore mvcScore
  then (mvcScore, setConfidence mvcScore (setType "mvc" pattern))
  else (maxScore, pattern) in
let '(maxScore, pattern) :=
  if PrimFloat.ltb maxScore layeredScore
  then (layeredScore, setConfidence layeredScore (setType "layered" pattern))
  else (maxScore, pattern) in
let pattern :=
  if PrimFloat.ltb maxScore microserviceScore
  then setConfidence microserviceScore (setType "microservice" pattern)
  else pattern in
ArchitecturePattern.mk (ArchitecturePattern.Type_ pattern) packageNames
  (detectDTOPatterns analysis) (ArchitecturePattern.Confidence pattern).

Local Close Scope float_scope.

Definition emptyAnalysis : ProjectAnalysis.t :=
ProjectAnalysis.mk [] [] (ArchitecturePattern.mk "" [] [] 0%float).

(** The callback of AnalyzeProject's walk. *)
Definition AnalyzeProject_walk (path : string) (d : filepath.DirEntry)
  (analysis : ProjectAnalysis.t) : ProjectAnalysis.t * filepath.error :=
match d with
| filepath.Directory name _ =>
    if shouldSkipDir name then (analysis, filepath.SkipDir) else (analysis, filepath.Nil)
| filepath.RegularFile _ parsed =>
    if negb (strings.HasSuffix path ".go") || strings.HasSuffix path "_test.go"
    then (analysis, filepath.Nil)
    else match analyzeFile path parsed analysis with
         | Some analysis' => (analysis', filepath.Nil)
         | None => (analysis, filepath.Err ("failed to parse " +:+ path))
         end
end.

(** [None] is the error result. *)
Definition AnalyzeProject (rootDir : string) (tree : filepath.DirEntry)
  : option ProjectAnalysis.t :=
match filepath.WalkDir AnalyzeProject_walk rootDir tree emptyAnalysis with
| (analysis, filepath.Nil) =>
    Some (ProjectAnalysis.mk
            (ProjectAnalysis.Structs analysis)
            (ProjectAnalysis.Packages analysis)
            (detectArchitecturePattern analysis))
| _ => None
end.

(** ** scan.go *)

Import regexp.

(** The end of the route expressions: an optional description after white
  space, then the end of the text. *)
Definition descTail : re := Cat (opt (Cat (plus ws) (Group 3 (Star any)))) EndText.

Definition routeRe : Regexp :=
MustCompile (seq [lit "@route"; plus ws; Group 1 (plus letter); plus ws;
                  Group 2 (plus non_ws); descTail]) 3.
Definition restRe : Regexp :=
MustCompile (seq [lit "@rest"; plus ws; Group 1 (plus letter); plus ws;
                  Group 2 (plus non_ws); descTail]) 3.
Definition graphqlRe : Regexp :=
MustCompile (seq [lit "@graphql"; plus ws;
                  Group 1 (Alt (lit "query") (Alt (lit "mutation") (lit "subscription")));
                  plus ws; Group 2 (plus non_ws); descTail]) 3.
Definition headerRe : Regexp :=
MustCompile (seq [lit "@header"; plus ws;
                  Group 1 (plus (Cls (fun a => negb (Ascii.eqb a ":"))));
                  chr ":"; Star ws; Group 2 (plus any); EndText]) 2.
Definition bodyRe : Regexp :=
MustCompile (seq [lit "@body"; plus ws; Group 1 (plus any); EndText]) 1.
Definition tagRe : Regexp :=
MustCompile (seq [lit "@tag"; plus ws;
                  Group 1 (plus (Cls (fun a =>
                    strings.is_letter a || strings.is_digit a
                    || strings.mem_char a "_.-/")));
                  EndText]) 1.
Definition schemaRe : Regexp :=
MustCompile (seq [lit "@schema"; plus ws; Group 1 (plus any); EndText]) 1.
Definition queryRe : Regexp :=
MustCompile (seq [lit "@query"; plus ws; Group 1 (plus any); EndText]) 1.
Definition variablesRe : Regexp :=
MustCompile (seq [lit "@variables"; plus ws; Group 1 (plus any); EndText]) 1.

(** [m[i]] of a match *)
Definition sub (m : list string) (i : nat) : string := nth i m "".

Definition isVerb (s : string) : bool := in_verbSet (strings.ToUpper s).

Definition guessHandlerName (call : Node) : string :=
match call with
| CallExpr _ (_ :: Ident name :: _) => name
| CallExpr _ (_ :: SelectorExpr _ sel :: _) => sel
| _ => ""
end.

Definition stringArgs (args : list Node) : list string :=
omap (fun a =>
        match a with
        | BasicLit STRING value =>
            match strconv.Unquote value with
            | Some s =>
                let s := strings.ToUpper (strings.TrimSpace s) in
                if in_verbSet s then Some s else None
            | None => None
            end
        | _ => None
        end) args.

Definition findChainedMethods (n : Node) : list string :=
match n with
| CallExpr (SelectorExpr x sel) args =>
    if String.eqb sel "Methods" then stringArgs args
    else match x with
         | CallExpr (SelectorExpr _ s2) innerArgs =>
             if String.eqb s2 "Methods" then stringArgs innerArgs else []
         | _ => []
         end
| _ => []
end.

Definition contains (ss : list string) (s : string) : bool :=
existsb (fun x => String.eqb x s) ss.

Definition isValidEndpointPath (path : string) : bool :=
if String.eqb path "" then false
else if negb (strings.HasPrefix path "/") then false
else
  let invalidPatterns :=
    ["/X-Request-ID"; "/Content-Type"; "/Authorization"; "/Accept"; "/User-Agent"] in
  if existsb (fun invalid => strings.EqualFold path invalid) invalidPatterns then false
  else
    let pathPart := strings.TrimPrefix path "/" in
    if (0 <? strings.Count path "-") && (strings.Count path "/" =? 1)
       && strings.Contains pathPart "-"
       && String.eqb (strings.Title pathPart) pathPart
    then false
    else if String.length (strings.TrimPrefix path "/") <? 2 then false
    else true.

(** The state of one ScanDir call: the objects it has allocated, and the
  captured variables [seen] and [endpoints] of [add]. *)
Record ScanState : Type := mkState {
heap : Heap;
seen : gset string;
endpoints : list Endpoint }.

Definition setMethod (v : string) (e : Endpoint) : Endpoint :=
mkEndpoint v (Path e) (SourceFile e) (Handler e) (Desc e) (Headers e)
           (BodyRaw e) (Tags e) (Type_ e) (GraphQL e).
Definition setPath (v : string) (e : Endpoint) : Endpoint :=
mkEndpoint (Method e) v (SourceFile e) (Handler e) (Desc e) (Headers e)
           (BodyRaw e) (Tags e) (Type_ e) (GraphQL e).
Definition setType_ (v : string) (e : Endpoint) : Endpoint :=
mkEndpoint (Method e) (Path e) (SourceFile e) (Handler e) (Desc e) (Headers e)
           (BodyRaw e) (Tags e) v (GraphQL e).

(** The key under which [add] remembers an endpoint. *)
Definition endpointKey (h : Heap) (e : Endpoint) : string :=
strings.ToUpper (Method e) +:+ " " +:+ Path e +:+ " " +:+ SourceFile e +:+ " "
+:+ strings.Join (load_slice h (Tags e)) ",".

Definition add (e : Endpoint) (st : ScanState) : ScanState :=
let e := if String.eqb (Method e) "" then setMethod "ANY" e else e in
let e := if negb (strings.HasPrefix (Path e) "/") then setPath ("/" +:+ Path e) e else e in
let e := if String.eqb (Type_ e) "" then setType_ "REST" e else e in
let key := endpointKey (heap st) e in
if bool_decide (key ∈ seen st) then st
else
  mkState (heap st) ({[ key ]} ∪ seen st)
          (endpoints st ++ [setMethod (strings.ToUpper (Method e)) e]).

(** *** The annotation parser *)

Definition isAnnotation (line : string) : bool :=
MatchString headerRe line || MatchString bodyRe line || MatchString tagRe line
|| MatchString schemaRe line || MatchString queryRe line || MatchString variablesRe line
|| MatchString graphqlRe line || MatchString restRe line || MatchString routeRe line.

(** First pass over a comment group: the lines that are annotations. *)
Definition annotationLines (text : string) : list string :=
omap (fun raw =>
        let line := strings.TrimSpace raw in
        if String.eqb line "" then None
        else if isAnnotation line then Some line else None)
     (strings.Split text "010").

(** The routes one line declares. *)
Definition routesOfLine (line : string) : list route.t :=
match FindStringSubmatch graphqlRe line with
| Some m =>
    [route.mk "POST" (sub m 2) (strings.TrimSpace (sub m 3)) "GraphQL"
              (strings.ToLower (sub m 1))]
| None => []
end
++ match FindStringSubmatch restRe line with
   | Some m =>
       let method := strings.ToUpper (sub m 1) in
       let method := if in_verbSet method then method else "ANY" in
       [route.mk method (sub m 2) (strings.TrimSpace (sub m 3)) "REST" ""]
   | None => []
   end
++ match FindStringSubmatch routeRe line with
   | Some m =>
       let method := strings.ToUpper (sub m 1) in
       let method := if in_verbSet method then method else "ANY" in
       [route.mk method (sub m 2) (strings.TrimSpace (sub m 3)) "REST" ""]
   | None => []
   end.

(** The accumulators of a group; [accHeaders] is a map on the heap. *)
Record Acc : Type := mkAcc {
accHeaders : loc;
accBody : string;
accTags : list string;
accGraphQL : option GraphQLInfo.t }.

Definition graphQLOrNew (g : option GraphQLInfo.t) : GraphQLInfo.t :=
default (GraphQLInfo.mk "" "" "" "") g.

(** One line of the loop that collects the other annotations. *)
Definition collectLine (line : string) (s : Heap * Acc) : Heap * Acc :=
let '(h, a) := s in
match FindStringSubmatch headerRe line with
| Some m =>
    let k := strings.TrimSpace (sub m 1) in
    let v := strings.TrimSpace (sub m 2) in
    if negb (String.eqb k "") then (store_map (accHeaders a) k v h, a) else (h, a)
| None =>
match FindStringSubmatch bodyRe line with
| Some m =>
    (h, mkAcc (accHeaders a) (strings.TrimSpace (sub m 1)) (accTags a) (accGraphQL a))
| None =>
match FindStringSubmatch tagRe line with
| Some m =>
    let tag := strings.TrimSpace (sub m 1) in
    if negb (String.eqb tag "") && negb (contains (accTags a) tag)
    then (h, mkAcc (accHeaders a) (accBody a) (accTags a ++ [tag]) (accGraphQL a))
    else (h, a)
| None =>
match FindStringSubmatch schemaRe line with
| Some m =>
    let g := graphQLOrNew (accGraphQL a) in
    (h, mkAcc (accHeaders a) (accBody a) (accTags a)
          (Some (GraphQLInfo.mk (GraphQLInfo.Operation g) (strings.TrimSpace (sub m 1))
                                (GraphQLInfo.Query g) (GraphQLInfo.Variables g))))
| None =>
match FindStringSubmatch queryRe line with
| Some m =>
    let g := graphQLOrNew (accGraphQL a) in
    (h, mkAcc (accHeaders a) (accBody a) (accTags a)
          (Some (GraphQLInfo.mk (GraphQLInfo.Operation g) (GraphQLInfo.Schema g)
                                (strings.TrimSpace (sub m 1)) (GraphQLInfo.Variables g))))
| None =>
match FindStringSubmatch variablesRe line with
| Some m =>
    let g := graphQLOrNew (accGraphQL a) in
    (h, mkAcc (accHeaders a) (accBody a) (accTags a)
          (Some (GraphQLInfo.mk (GraphQLInfo.Operation g) (GraphQLInfo.Schema g)
                                (GraphQLInfo.Query g) (strings.TrimSpace (sub m 1)))))
| None => (h, a)
end end end end end end.

(** [append([]string(nil), accTags...)]: nil when there is nothing to copy,
  a new array otherwise. *)
Definition copyTags (ts : list string) (h : Heap) : option loc * Heap :=
match ts with
| [] => (None, h)
| _ => let (l, h') := alloc (SliceObj ts) h in (Some l, h')
end.

(** One route of the loop that creates the endpoints; the state is the
  heap, [accGraphQL] and [res]. *)
Definition endpointOfRoute (sourcePath : string) (a : Acc) (r : route.t)
  (s : Heap * option GraphQLInfo.t * list Endpoint)
  : Heap * option GraphQLInfo.t * list Endpoint :=
let '(h, accG, res) := s in
let (hcopy, h) := alloc (MapObj (load_map h (Some (accHeaders a)))) h in
let (tcopy, h) := copyTags (accTags a) h in
if String.eqb (route.routeType r) "GraphQL" then
  let g := graphQLOrNew accG in
  let g := if String.eqb (GraphQLInfo.Operation g) ""
           then GraphQLInfo.mk (route.operation r) (GraphQLInfo.Schema g)
                               (GraphQLInfo.Query g) (GraphQLInfo.Variables g)
           else g in
  (h, Some g,
   res ++ [mkEndpoint (route.method r) (route.path r) sourcePath "" (route.desc r)
                      (Some hcopy) (accBody a) tcopy "GraphQL" (Some g)])
else
  (h, accG,
   res ++ [mkEndpoint (route.method r) (route.path r) sourcePath "" (route.desc r)
                      (Some hcopy) (accBody a) tcopy "REST" None]).

(** One comment group; [text] is [cg.Text()]. *)
Definition scanGroup (sourcePath : string) (text : string) (s : Heap * list Endpoint)
  : Heap * list Endpoint :=
let '(h, res) := s in
let annotations := annotationLines text in
let routes := concat (map routesOfLine annotations) in
let (hdrs, h) := alloc (MapObj ∅) h in
let '(h, a) := fold_left (fun s line => collectLine line s) annotations
                         (h, mkAcc hdrs "" [] None) in
let '(h, _, res) :=
  fold_left (fun s r => endpointOfRoute sourcePath a r s) routes (h, accGraphQL a, res) in
(h, res).

Definition scanAnnotationsFromFile (file : File) (sourcePath : string) (h : Heap)
  : Heap * list Endpoint :=
fold_left (fun s text => scanGroup sourcePath text s) (FileComments file) (h, []).

(** *** Function bodies *)

Definition scanFunctionsForBodies (g : option ProjectAnalysis.t) (file : File)
  : gmap string string :=
fold_left (fun (functionBodies : gmap string string) decl =>
             match decl with
             | FuncDecl funcName _ =>
                 let detectedBody := DetectBodyFromFunction g decl in
                 if negb (String.eqb detectedBody "")
                 then <[funcName := detectedBody]> functionBodies
                 else functionBodies
             | _ => functionBodies
             end) (FileDecls file) ∅.

(** *** The route-call recogniser *)

(** The test every branch makes on the path argument: there is a first
  argument, it is a string literal, it unquotes and the path is valid. *)
Definition pathLiteral (args : list Node) : option string :=
match args with
| BasicLit STRING value :: _ =>
    match strconv.Unquote value with
    | Some p => if isValidEndpointPath p then Some p else None
    | None => None
    end
| _ => None
end.

(** [globalFunctionBodies[handler]] when there is a handler name *)
Definition bodyOf (bodies : gmap string string) (handler : string) : string :=
if negb (String.eqb handler "") then default "" (bodies !! handler) else "".

(** [add(Endpoint{..., Headers: map[string]string{}, ...})]: the literal
  makes its header map, then [add] runs. *)
Definition addWithHeaders (e : option loc -> Endpoint) (st : ScanState) : ScanState :=
let (l, h) := alloc (MapObj ∅) (heap st) in
add (e (Some l)) (mkState h (seen st) (endpoints st)).

Definition restEndpoint (method p file handler body : string) (hdr : option loc)
  : Endpoint :=
mkEndpoint method p file handler "" hdr body None "REST" None.

(** The bodies of the branches for [HandleFunc] and for [Handle] are the
  same text. *)
Definition handleBranch (bodies : gmap string string) (filename : string)
  (n : Node) (p : string) (st : ScanState) : ScanState :=
let methods := findChainedMethods n in
let handler := guessHandlerName n in
let body := bodyOf bodies handler in
if List.length methods =? 0 then
  addWithHeaders (restEndpoint "ANY" p filename handler body) st
else
  fold_left (fun st m =>
               let methodBody :=
                 if (String.eqb m "POST" || String.eqb m "PUT" || String.eqb m "PATCH")
                    && negb (String.eqb body "")
                 then body else "" in
               addWithHeaders (restEndpoint m p filename handler methodBody) st)
            methods st.

(** The five tests the visitor makes on a call [x.sel(args)], in the order
    of the source; [n] is the call. *)

(** [*.Methods("GET", "POST")] chained from HandleFunc or Handle *)
Definition methodsBranch (filename : string) (x : Node) (sel : string)
    (args : list Node) (st : ScanState) : ScanState :=
  if String.eqb sel "Methods" && (1 <=? List.length args) then
    match x with
    | CallExpr (SelectorExpr _ innerSel) innerArgs =>
        if String.eqb innerSel "HandleFunc" || String.eqb innerSel "Handle" then
          match pathLiteral innerArgs with
          | Some p =>
              fold_left (fun st m =>
                           addWithHeaders
                             (restEndpoint m p filename (guessHandlerName x) "") st)
                        (stringArgs args) st
          | None => st
          end
        else st
    | _ => st
    end
  else st.

(** chi-like: [r.Get("/path", handler)] *)
Definition verbBranch (bodies : gmap string string) (filename : string) (n : Node)
    (sel : string) (args : list Node) (st : ScanState) : ScanState :=
  if isVerb sel then
    match pathLiteral args with
    | Some p =>
        let handler := guessHandlerName n in
        addWithHeaders
          (restEndpoint (strings.ToUpper sel) p filename handler (bodyOf bodies handler)) st
    | None => st
    end
  else st.

(** GraphQL endpoints detection (only for POST method) *)
Definition postBranch (bodies : gmap string string) (filename : string) (n : Node)
    (sel : string) (args : list Node) (st : ScanState) : ScanState :=
  if String.eqb sel "POST" then
    match pathLiteral args with
    | Some p =>
        if strings.Contains (strings.ToLower p) "graphql"
           || strings.Contains (strings.ToLower p) "graph"
           || strings.HasSuffix (strings.ToLower p) "/query"
        then
          addWithHeaders
            (fun hdr => mkEndpoint "POST" p filename (guessHandlerName n) "" hdr ""
                          None "GraphQL" (Some (GraphQLInfo.mk "query" "" "" "")))
            st
        else
          let handler := guessHandlerName n in
          addWithHeaders (restEndpoint "POST" p filename handler (bodyOf bodies handler)) st
    | None => st
    end
  else st.

(** net/http and gorilla: [*.HandleFunc("/path", h)]; and [*.Handle("/path", h)]
    when [name] is "Handle" *)
Definition handleFuncBranch (name : string) (bodies : gmap string string)
    (filename : string) (n : Node) (sel : string) (args : list Node) (st : ScanState)
    : ScanState :=
  if String.eqb sel name then
    match pathLiteral args with
    | Some p => handleBranch bodies filename n p st
    | None => st
    end
  else st.

(** The visitor of the second pass, on one node of the file [filename]. *)
Definition ScanDir_visit (bodies : gmap string string) (filename : string)
    (n : Node) (st : ScanState) : bool * ScanState :=
  match n with
  | CallExpr (SelectorExpr x sel) args =>
      let st := methodsBranch filename x sel args st in
      let st := verbBranch bodies filename n sel args st in
      let st := postBranch bodies filename n sel args st in
      let st := handleFuncBranch "HandleFunc" bodies filename n sel args st in
      let st := handleFuncBranch "Handle" bodies filename n sel args st in
      (true, st)
  | _ => (true, st)
  end.

(** *** ScanDir *)

Definition skipsDir (name : string) : bool :=
strings.HasPrefix name "." || String.eqb name "vendor" || String.eqb name "node_modules"
|| String.eqb name "bin" || String.eqb name "dist".

Definition isGoSource (path : string) : bool :=
strings.HasSuffix path ".go" && negb (strings.HasSuffix path "_test.go").

(** First pass: the function bodies of all files. *)
Definition ScanDir_walk1 (g : option ProjectAnalysis.t) (path : string)
  (d : filepath.DirEntry) (globalFunctionBodies : gmap string string)
  : gmap string string * filepath.error :=
match d with
| filepath.Directory name _ =>
    (globalFunctionBodies, if skipsDir name then filepath.SkipDir else filepath.Nil)
| filepath.RegularFile _ parsed =>
    if negb (isGoSource path) then (globalFunctionBodies, filepath.Nil)
    else match parsed with
         | None => (globalFunctionBodies, filepath.Err ("parse " +:+ path))
         | Some file =>
             (scanFunctionsForBodies g file ∪ globalFunctionBodies, filepath.Nil)
         end
end.

(** One parsed file of the second pass: its annotations, then its calls. *)
Definition scanFile (bodies : gmap string string) (path : string) (file : File)
  (st : ScanState) : ScanState :=
let (h, anns) := scanAnnotationsFromFile file path (heap st) in
let st := fold_left (fun st a => add a st) anns (mkState h (seen st) (endpoints st)) in
InspectList (ScanDir_visit bodies path) (FileDecls file) st.

Definition ScanDir_walk2 (bodies : gmap string string) (path : string)
  (d : filepath.DirEntry) (st : ScanState) : ScanState * filepath.error :=
match d with
| filepath.Directory name _ =>
    (st, if skipsDir name then filepath.SkipDir else filepath.Nil)
| filepath.RegularFile _ parsed =>
    if negb (isGoSource path) then (st, filepath.Nil)
    else match parsed with
         | None => (st, filepath.Err ("parse " +:+ path))
         | Some file => (scanFile bodies path file st, filepath.Nil)
         end
end.

(** What a call returns and leaves behind: the endpoints (with the heap
  their references point into), the error, and globalProjectAnalysis. *)
Record ScanResult : Type := mkResult {
result : list Endpoint;
resultHeap : Heap;
resultErr : filepath.error;
globalProjectAnalysis : option ProjectAnalysis.t }.

(** [g] is globalProjectAnalysis when the call starts. *)
Definition ScanDir (root : string) (tree : filepath.DirEntry)
  (g : option ProjectAnalysis.t) : ScanResult :=
let g := match AnalyzeProject root tree with
         | Some projectAnalysis => Some projectAnalysis
         | None => g
         end in
match filepath.WalkDir (ScanDir_walk1 g) root tree ∅ with
| (globalFunctionBodies, filepath.Nil) =>
    let (st, err) :=
      filepath.WalkDir (ScanDir_walk2 globalFunctionBodies) root tree (mkState [] ∅ []) in
    mkResult (endpoints st) (heap st) err g
| (_, err) => mkResult [] [] err g
end.

End Scanner.

(** * Properties *)

(** ** Syntax trees: induction and the traversal *)
Section NodeInduction.
Import ast.
Variable P : Node -> Prop.
Hypothesis step : forall n, Forall P (children n) -> P n.

Fixpoint Node_children_ind (n : Node) : P n :=
  let all := fix all (l : list Node) : Forall P l :=
    match l with
    | [] => @List.Forall_nil _ P
    | x :: l' => @List.Forall_cons _ P x l' (Node_children_ind x) (all l')
    end in
  let one (x : Node) : Forall P [x] := @List.Forall_cons _ P x [] (Node_children_ind x) (@List.Forall_nil _ P) in
  let opt (o : option Node) : Forall P (opt_list o) :=
    match o with
    | Some x => one x
    | None => @List.Forall_nil _ P
    end in
  step n
    match n return Forall P (children n) with
    | Ident _ | BasicLit _ _ => @List.Forall_nil _ P
    | SelectorExpr x _ => one x
    | CallExpr f args => @List.Forall_cons _ P f args (Node_children_ind f) (all args)
    | UnaryExpr _ x | StarExpr x | ArrayType x => one x
    | MapType k v =>
        @List.Forall_cons _ P k [v] (Node_children_ind k) (one v)
    | StructType fs => all fs
    | Field _ t _ => one t
    | CompositeLit t elts => proj2 (List.Forall_app P (opt_list t) elts) (conj (opt t) (all elts))
    | GenDecl specs => all specs
    | ValueSpec _ t vs => proj2 (List.Forall_app P (opt_list t) vs) (conj (opt t) (all vs))
    | TypeSpec _ t => one t
    | AssignStmt l r => proj2 (List.Forall_app P l r) (conj (all l) (all r))
    | FuncDecl _ b => opt b
    | Other _ cs => all cs
    end.
End NodeInduction.

Section InspectFacts.
Import ast.
Context {S : Type} (f : Node -> S -> bool * S).

Lemma InspectList_nil s : InspectList f [] s = s.
Proof. reflexivity. Qed.

Lemma InspectList_cons x l s :
  InspectList f (x :: l) s = InspectList f l (Inspect f x s).
Proof. reflexivity. Qed.

Lemma InspectList_app l1 l2 s :
  InspectList f (l1 ++ l2) s = InspectList f l2 (InspectList f l1 s).
Proof. apply fold_left_app. Qed.

(** The traversal: the visitor on the node, then, if it said so, the
    children from left to right. *)
Lemma Inspect_unfold n s :
  Inspect f n s =
  let (descend, s1) := f n s in
  if descend then InspectList f (children n) s1 else s1.
Proof.
  assert (W : forall l s0,
    (fix walk (l : list Node) (s : S) {struct l} : S :=
       match l with
       | [] => s
       | x :: l' => walk l' (Inspect f x s)
       end) l s0 = InspectList f l s0).
  { induction l as [|x l IH]; intros s0; [reflexivity|]. simpl. apply IH. }
  destruct n; simpl; destruct (f _ s) as [[] s1]; simpl;
    rewrite ?W, ?InspectList_app; try reflexivity;
    try (destruct Type_0; reflexivity); try (destruct Body; reflexivity).
Qed.
End InspectFacts.

(** The order in which the entries were made: one possible iteration order. *)
Definition in_order : forall V : Type, entries V -> entries V := fun _ m => m.
(** Another one: the reverse. *)
Definition reversed : forall V : Type, entries V -> entries V := fun _ m => rev m.

(** ** Architecture pattern *)
Section Architecture.
Variable range : forall V : Type, entries V -> entries V.

(** When the four scores are 0 the selection keeps its first candidate:
    the type is "clean", with confidence 0; the initial "unknown" is
    overwritten before any comparison. *)
Lemma detectArchitecturePattern_zero_scores (analysis : ProjectAnalysis.t) :
  let packageNames :=
    omap (fun kv : string * PackageInfo.t =>
            if negb (String.eqb kv.1 "main") then Some kv.1 else None)
         (range _ (ProjectAnalysis.Packages analysis)) in
  detectCleanArchitecture packageNames = 0%float ->
  detectMVC packageNames = 0%float ->
  detectLayeredArchitecture packageNames = 0%float ->
  detectMicroservicePattern range analysis = 0%float ->
  ArchitecturePattern.Type_ (detectArchitecturePattern range analysis) = "clean"
  /\ ArchitecturePattern.Confidence (detectArchitecturePattern range analysis) = 0%float.
Proof.
  intros names Hc Hm Hl Hs. unfold detectArchitecturePattern.
  fold names. rewrite Hc, Hm, Hl, Hs. split; reflexivity.
Qed.
End Architecture.

(** A project of one package, [store], that imports [fmt]: no keyword of any
    family occurs in it. *)
Definition plainProject : ProjectAnalysis.t :=
  ProjectAnalysis.mk []
    [("store", PackageInfo.mk "store" ["fmt"] false)]
    (ArchitecturePattern.mk "" [] [] 0%float).

(** C7: for the project [plainProject], in which no package matches any
    keyword of the four families, the four scores are 0 and
    detectArchitecturePattern returns the type "clean" with confidence 0,
    not the type "unknown". *)
Theorem detectArchitecturePattern_no_match_is_clean :
  let names := ["store"] in
  detectCleanArchitecture names = 0%float
  /\ detectMVC names = 0%float
  /\ detectLayeredArchitecture names = 0%float
  /\ detectMicroservicePattern in_order plainProject = 0%float
  /\ detectArchitecturePattern in_order plainProject
     = ArchitecturePattern.mk "clean" ["store"] [] 0%float
  /\ ArchitecturePattern.Type_ (detectArchitecturePattern in_order plainProject)
     <> "unknown".
Proof. repeat split; try reflexivity. discriminate. Qed.

(** ** Struct tags and project structs *)

(** extractJSONTag never returns the exclusion marker: it gives the empty
    string for it. *)
Lemma extractJSONTag_not_dash (tag : string) : extractJSONTag tag <> "-".
Proof.
  unfold extractJSONTag.
  induction (strings.Split tag " ") as [|part parts IH]; simpl; [discriminate|].
  destruct (strings.HasPrefix part "json:"); [|exact IH].
  match goal with
  | |- context [if negb (String.eqb ?j "-") && _ then _ else _] =>
      destruct (String.eqb_spec j "-") as [E|E]; simpl; [exact IH|]
  end.
  match goal with
  | |- context [if negb (String.eqb ?j "") then _ else _] =>
      destruct (String.eqb j ""); simpl; [exact IH|exact E]
  end.
Qed.

(** A named field of a project struct never carries the key "-", so the
    test for it in generateJSONFromProjectStruct does not fire on what the
    analyser produces from named fields with identifier names. *)
Lemma analyzeStructField_named_not_dash (names : list string) (type : ast.Node)
    (tag : option string) :
  Forall (fun name => strings.ToLower name <> "-") names ->
  Forall (fun f => StructFieldInfo.JSONTag f <> "-" \/ names = [])
         (analyzeStructField (ast.Field names type tag)).
Proof.
  intros Hn. unfold analyzeStructField.
  destruct names as [|n0 rest]; [repeat constructor; right; reflexivity|].
  apply Forall_map. eapply Forall_impl; [exact Hn|].
  intros name Hname. left. simpl. destruct tag as [value|]; [|exact Hname].
  destruct (String.eqb (extractJSONTag (strings.Trim value "`")) ""); [exact Hname|].
  apply extractJSONTag_not_dash.
Qed.

(** [type Account struct { Name string `json:"name"`; Password string `json:"-"` }]
    in a file [models.go] of package [main]. *)
Definition accountFile : File :=
  mkFile "main" [] []
    [ast.GenDecl
       [ast.TypeSpec "Account"
          (ast.StructType
             [ast.Field ["Name"] (ast.Ident "string") (Some (q "`json:'name'`"));
              ast.Field ["Password"] (ast.Ident "string") (Some (q "`json:'-'`"))])]].

Definition accountStruct : StructDefinition.t :=
  StructDefinition.mk "Account"
    [StructFieldInfo.mk "Name" "string" "name" true;
     StructFieldInfo.mk "Password" "string" "password" true]
    "main" "models.go" true.

(** C6: the project struct [Account] has a field tagged [json:"-"]; the
    analyser records the key "password" for it, and the body rendered from
    the project struct contains the field. *)
Theorem excluded_field_is_rendered :
  extractJSONTag (q "json:'-'") = ""
  /\ (ProjectAnalysis.Structs <$> analyzeFile "models.go" (Some accountFile) emptyAnalysis)
     = Some [("main.Account", accountStruct)]
  /\ generateJSONFromProjectStruct accountStruct
     = q "{'name':'string','password':'string'}".
Proof. repeat split; reflexivity. Qed.

(** ** The variable-name fallback *)

(** The table of the specification: the keywords of each row, in the order
    of priority, and the shape of the row. *)
Definition shapeTable : list (list string * string) :=
  [ (["user"], q "{'name':'string','email':'string','id':'string'}");
    (["create"; "post"], q "{'name':'string','value':'string','type':'string'}");
    (["update"; "put"; "patch"], q "{'id':'string','name':'string','value':'string'}");
    (["delete"], q "{'id':'string','reason':'string'}");
    (["request"; "req"], q "{'data':'string','parameters':{}}") ].

Definition genericShape : string :=
  q "{'id':'string','name':'string','value':'string','timestamp':'2024-01-01T00:00:00Z'}".

(** The first row one of whose keywords occurs in the lower-cased
    identifier; the generic shape when there is none. *)
Definition tableShape (identifier : string) : string :=
  let lowered := strings.ToLower identifier in
  default genericShape
    (first_match (fun row : list string * string =>
                    if existsb (fun keyword => strings.Contains lowered keyword) row.1
                    then Some row.2 else None)
                 shapeTable).

(** The identifier the fallback looks at: the operand of the first argument
    when that is a unary expression on an identifier, else that of the
    second. *)
Definition targetIdentifier (call : ast.Node) : option string :=
  match call with
  | ast.CallExpr _ args =>
      match unaryIdent (args !! 0) with
      | Some name => Some name
      | None => unaryIdent (args !! 1)
      end
  | _ => None
  end.

(** An iteration order is a permutation of the entries. *)
Definition is_order (range : forall V : Type, entries V -> entries V) : Prop :=
  forall (V : Type) (m : entries V), range V m ≡ₚ m.

Lemma in_order_is_order : is_order in_order.
Proof. intros V m. reflexivity. Qed.

Lemma reversed_is_order : is_order reversed.
Proof. intros V m. unfold reversed. apply Permutation_sym, Permutation_rev. Qed.

Lemma first_match_none {A B : Type} (f : A -> option B) (l : list A) :
  (forall x, In x l -> f x = None) -> first_match f l = None.
Proof.
  induction l as [|x l IH]; intros H; [reflexivity|]. simpl.
  rewrite (H x (or_introl eq_refl)). apply IH. intros y Hy. apply H. right. exact Hy.
Qed.

Lemma generateBodyByVariableName_table (varName : string) :
  generateBodyByVariableName varName = tableShape varName.
Proof.
  unfold generateBodyByVariableName, tableShape, shapeTable, genericShape.
  cbn [first_match existsb fst snd].
  repeat (match goal with
          | |- context [strings.Contains ?a ?b] =>
              destruct (strings.Contains a b); cbn [orb first_match existsb fst snd default]
          end; try reflexivity).
Qed.

Section Fallback.
Variable range : forall V : Type, entries V -> entries V.
Hypothesis range_order : is_order range.

(** Without project structs the project analysis gives no body. *)
Lemma generateBodyFromProjectAnalysis_no_structs (call : ast.Node)
    (analysis : ProjectAnalysis.t) :
  ProjectAnalysis.Structs analysis = [] ->
  generateBodyFromProjectAnalysis range call analysis = "".
Proof.
  intros Hs. unfold generateBodyFromProjectAnalysis, matchingStruct. rewrite Hs.
  assert (Hr : range _ ([] : entries StructDefinition.t) = []).
  { apply Permutation_nil_r, range_order. }
  rewrite Hr. destruct call; try reflexivity. simpl.
  assert (Hd : forall target,
    first_match (fun dtoPattern : string =>
      if strings.Contains (strings.ToLower dtoPattern) (strings.ToLower target)
      then @None StructDefinition.t else None)
      (ArchitecturePattern.DTOPatterns (ProjectAnalysis.ArchPattern analysis)) = None).
  { intros target. apply first_match_none. intros x _.
    destruct (strings.Contains _ _); reflexivity. }
  destruct (unaryIdent (Args !! 0)) as [n0|]; simpl;
    destruct (unaryIdent (Args !! 1)) as [n1|]; simpl;
    rewrite ?Hd; try reflexivity;
    match goal with |- context [String.eqb ?n ""] => destruct (String.eqb n "") end;
    reflexivity.
Qed.

(** C5: when the project analysis is absent or has no struct, and the
    function has no local inline struct (or one without fields), the body
    synthesised for a call whose target identifier is [name] is the row of
    the specification's table selected by [name]. *)
Theorem fallback_is_table (g : option ProjectAnalysis.t) (call : ast.Node)
    (structInfo : option StructInfo.t) (name : string) :
  match g with None => True | Some analysis => ProjectAnalysis.Structs analysis = [] end ->
  match structInfo with None => True | Some info => StructInfo.Fields info = [] end ->
  targetIdentifier call = Some name ->
  generateSmartBodyExample range g call structInfo = tableShape name.
Proof.
  intros Hg Hs Ht. unfold generateSmartBodyExample.
  assert (Hp : match g with
               | Some analysis => generateBodyFromProjectAnalysis range call analysis
               | None => ""
               end = "").
  { destruct g as [analysis|]; [|reflexivity].
    apply generateBodyFromProjectAnalysis_no_structs. exact Hg. }
  rewrite Hp. cbn [String.eqb negb].
  assert (Ha : generateBodyFromArgs call = tableShape name).
  { unfold generateBodyFromArgs, targetIdentifier in *.
    destruct call; try discriminate.
    destruct (unaryIdent (Args !! 0)) as [n0|].
    - injection Ht as ->. apply generateBodyByVariableName_table.
    - rewrite Ht. apply generateBodyByVariableName_table. }
  destruct structInfo as [info|]; [|exact Ha].
  rewrite Hs. exact Ha.
Qed.
End Fallback.

(** [c.ShouldBindJSON(&userRequest)] and [json.NewDecoder(r.Body).Decode(&req)] *)
Definition bindUserRequest : ast.Node :=
  ast.CallExpr (ast.SelectorExpr (ast.Ident "c") "ShouldBindJSON")
               [ast.UnaryExpr "&" (ast.Ident "userRequest")].
Definition decodeReq : ast.Node :=
  ast.CallExpr
    (ast.SelectorExpr
       (ast.CallExpr (ast.SelectorExpr (ast.Ident "json") "NewDecoder")
                     [ast.SelectorExpr (ast.Ident "r") "Body"])
       "Decode")
    [ast.UnaryExpr "&" (ast.Ident "req")].

Lemma fallback_is_table_witness :
  generateSmartBodyExample in_order None bindUserRequest None
  = q "{'name':'string','email':'string','id':'string'}".
Proof.
  exact (fallback_is_table in_order in_order_is_order None bindUserRequest None
           "userRequest" I I eq_refl).
Defined.

Example fallback_decode_req :
  generateSmartBodyExample in_order None decodeReq None
  = q "{'data':'string','parameters':{}}".
Proof. reflexivity. Qed.

(** ** The route-call recogniser on a chain [x.HandleFunc(path, h).Methods(...)] *)

(** Closed tests are replaced by their value. *)
Ltac eval_test t :=
  let v := eval vm_compute in t in
  match v with
  | true => change t with true
  | false => change t with false
  end.
Ltac eval_tests :=
  repeat match goal with
         | |- context [String.eqb ?a ?b] => eval_test (String.eqb a b)
         | |- context [isVerb ?a] => eval_test (isVerb a)
         | |- context [Nat.leb ?a ?b] => eval_test (Nat.leb a b)
         | |- context [Nat.eqb ?a ?b] => eval_test (Nat.eqb a b)
         end.

Section Visit.
Import ast.
Variables (bodies : gmap string string) (file : string).

Lemma visit_Ident name st : Inspect (ScanDir_visit bodies file) (Ident name) st = st.
Proof. rewrite Inspect_unfold. reflexivity. Qed.

Lemma visit_BasicLit k v st : Inspect (ScanDir_visit bodies file) (BasicLit k v) st = st.
Proof. rewrite Inspect_unfold. reflexivity. Qed.

Lemma visit_SelectorExpr x sel st :
  Inspect (ScanDir_visit bodies file) (SelectorExpr x sel) st
  = Inspect (ScanDir_visit bodies file) x st.
Proof. rewrite Inspect_unfold. reflexivity. Qed.

(** A call [x.sel(args)]: the five tests on the call, then the receiver,
    then the arguments. *)
Lemma visit_call x sel args st :
  Inspect (ScanDir_visit bodies file) (CallExpr (SelectorExpr x sel) args) st
  = InspectList (ScanDir_visit bodies file) args
      (Inspect (ScanDir_visit bodies file) x
        (handleFuncBranch "Handle" bodies file (CallExpr (SelectorExpr x sel) args) sel args
          (handleFuncBranch "HandleFunc" bodies file (CallExpr (SelectorExpr x sel) args) sel args
            (postBranch bodies file (CallExpr (SelectorExpr x sel) args) sel args
              (verbBranch bodies file (CallExpr (SelectorExpr x sel) args) sel args
                (methodsBranch file x sel args st)))))).
Proof.
  rewrite Inspect_unfold. cbn [ScanDir_visit children InspectList fold_left].
  rewrite visit_SelectorExpr. reflexivity.
Qed.
End Visit.

(** [x.HandleFunc(path, h).Methods("GET", "POST")], [value] being the source
    text of the path literal *)
Definition handleFuncCall (x value h : string) : ast.Node :=
  ast.CallExpr (ast.SelectorExpr (ast.Ident x) "HandleFunc")
               [ast.BasicLit ast.STRING value; ast.Ident h].
Definition methodsChain (x value h : string) : ast.Node :=
  ast.CallExpr (ast.SelectorExpr (handleFuncCall x value h) "Methods")
               [ast.BasicLit ast.STRING (q "'GET'"); ast.BasicLit ast.STRING (q "'POST'")].

Lemma pathLiteral_valid value p rest :
  strconv.Unquote value = Some p -> isValidEndpointPath p = true ->
  pathLiteral (ast.BasicLit ast.STRING value :: rest) = Some p.
Proof. intros Hu Hv. unfold pathLiteral. rewrite Hu, Hv. reflexivity. Qed.

Lemma isValidEndpointPath_prefix p :
  isValidEndpointPath p = true -> strings.HasPrefix p "/" = true.
Proof.
  unfold isValidEndpointPath. destruct (String.eqb p ""); [discriminate|].
  destruct (strings.HasPrefix p "/"); [reflexivity|discriminate].
Qed.

(** The tests of the visitor, when they fail and when they succeed. *)
Lemma methodsBranch_other file x sel args st :
  String.eqb sel "Methods" = false -> methodsBranch file x sel args st = st.
Proof. intros H. unfold methodsBranch. rewrite H. reflexivity. Qed.

Lemma methodsBranch_chain file r inner innerArgs p a args st :
  String.eqb inner "HandleFunc" || String.eqb inner "Handle" = true ->
  pathLiteral innerArgs = Some p ->
  methodsBranch file (ast.CallExpr (ast.SelectorExpr r inner) innerArgs) "Methods"
                (a :: args) st
  = fold_left (fun st m =>
                 addWithHeaders
                   (restEndpoint m p file
                      (guessHandlerName (ast.CallExpr (ast.SelectorExpr r inner) innerArgs))
                      "") st)
              (stringArgs (a :: args)) st.
Proof. intros Hi Hp. unfold methodsBranch. cbn [String.eqb Ascii.eqb Bool.eqb andb].
  cbn [List.length Nat.leb]. rewrite Hi, Hp. reflexivity. Qed.

Lemma verbBranch_other bodies file n sel args st :
  isVerb sel = false -> verbBranch bodies file n sel args st = st.
Proof. intros H. unfold verbBranch. rewrite H. reflexivity. Qed.

Lemma postBranch_other bodies file n sel args st :
  String.eqb sel "POST" = false -> postBranch bodies file n sel args st = st.
Proof. intros H. unfold postBranch. rewrite H. reflexivity. Qed.

Lemma handleFuncBranch_other name bodies file n sel args st :
  String.eqb sel name = false -> handleFuncBranch name bodies file n sel args st = st.
Proof. intros H. unfold handleFuncBranch. rewrite H. reflexivity. Qed.

Lemma handleFuncBranch_hit name bodies file n args p st :
  pathLiteral args = Some p ->
  handleFuncBranch name bodies file n name args st = handleBranch bodies file n p st.
Proof. intros H. unfold handleFuncBranch. rewrite String.eqb_refl, H. reflexivity. Qed.

(** The visitor calls [add] three times on the chain: for GET and POST at
    the [Methods] call, and for ANY at the [HandleFunc] call inside it,
    where findChainedMethods looks at the receiver and finds no [Methods]. *)
Lemma chain_visits bodies file x value h p st :
  strconv.Unquote value = Some p -> isValidEndpointPath p = true ->
  ast.Inspect (ScanDir_visit bodies file) (methodsChain x value h) st
  = addWithHeaders (restEndpoint "ANY" p file h (bodyOf bodies h))
      (addWithHeaders (restEndpoint "POST" p file h "")
         (addWithHeaders (restEndpoint "GET" p file h "") st)).
Proof.
  intros Hu Hv.
  pose proof (pathLiteral_valid value p [ast.Ident h] Hu Hv) as Hp.
  unfold methodsChain, handleFuncCall.
  rewrite visit_call.
  rewrite (handleFuncBranch_other "Handle"), (handleFuncBranch_other "HandleFunc"),
    postBranch_other, verbBranch_other by reflexivity.
  rewrite (methodsBranch_chain _ _ _ _ p) by (reflexivity || exact Hp).
  change (stringArgs _) with ["GET"; "POST"].
  rewrite visit_call.
  rewrite (handleFuncBranch_other "Handle") by reflexivity.
  rewrite (handleFuncBranch_hit "HandleFunc" _ _ _ _ p) by exact Hp.
  rewrite postBranch_other, verbBranch_other, methodsBranch_other by reflexivity.
  cbn [ast.InspectList fold_left]. rewrite !visit_BasicLit, !visit_Ident.
  unfold handleBranch.
  change (findChainedMethods _) with (@nil string).
  reflexivity.
Qed.

(** [add] on an endpoint that needs no default, under a key not yet seen *)
Lemma add_fresh e st :
  String.eqb (Method e) "" = false ->
  strings.HasPrefix (Path e) "/" = true ->
  String.eqb (Type_ e) "" = false ->
  endpointKey (heap st) e ∉ seen st ->
  add e st = mkState (heap st) ({[ endpointKey (heap st) e ]} ∪ seen st)
                     (endpoints st ++ [setMethod (strings.ToUpper (Method e)) e]).
Proof.
  intros Hm Hp Ht Hk. unfold add. rewrite Hm. cbv iota. rewrite Hp. cbn [negb]. cbv iota.
  rewrite Ht. cbv iota. rewrite bool_decide_eq_false_2 by exact Hk. reflexivity.
Qed.

Lemma addWithHeaders_fresh (e : option loc -> Endpoint) st :
  let e' := e (Some (List.length (heap st))) in
  let h' := heap st ++ [MapObj ∅] in
  String.eqb (Method e') "" = false ->
  strings.HasPrefix (Path e') "/" = true ->
  String.eqb (Type_ e') "" = false ->
  endpointKey h' e' ∉ seen st ->
  addWithHeaders e st
  = mkState h' ({[ endpointKey h' e' ]} ∪ seen st)
            (endpoints st ++ [setMethod (strings.ToUpper (Method e')) e']).
Proof.
  intros e' h' Hm Hp Ht Hk. unfold addWithHeaders, alloc.
  rewrite add_fresh by assumption. reflexivity.
Qed.

(** For every receiver, handler and valid path literal, scanning the chain
    from the empty state gives three endpoints: GET, POST and ANY. *)
Lemma chain_endpoints bodies file x value h p :
  strconv.Unquote value = Some p -> isValidEndpointPath p = true ->
  map (fun e => (Method e, Path e, Handler e))
      (endpoints (ast.Inspect (ScanDir_visit bodies file) (methodsChain x value h)
                              (mkState [] ∅ [])))
  = [("GET", p, h); ("POST", p, h); ("ANY", p, h)].
Proof.
  intros Hu Hv. rewrite (chain_visits _ _ _ _ _ p) by assumption.
  pose proof (isValidEndpointPath_prefix p Hv) as Hp.
  rewrite (addWithHeaders_fresh _ (mkState [] ∅ []));
    [|reflexivity|exact Hp|reflexivity|set_solver].
  rewrite (addWithHeaders_fresh _ (mkState _ _ _)); [|reflexivity|exact Hp|reflexivity|].
  2:{ cbn. rewrite elem_of_union, elem_of_singleton.
      intros [E|E]; [discriminate E|set_solver]. }
  rewrite (addWithHeaders_fresh _ (mkState _ _ _)); [|reflexivity|exact Hp|reflexivity|].
  2:{ cbn. rewrite !elem_of_union, !elem_of_singleton.
      intros [E|[E|E]]; [discriminate E|discriminate E|set_solver]. }
  reflexivity.
Qed.

(** A file [main.go] whose function [main] holds the chain
    [x.HandleFunc("/v1/users", handler).Methods("GET","POST")]. *)
Definition chainFile : File :=
  mkFile "main" [] []
    [ast.FuncDecl "main"
       (Some (ast.BlockStmt
                [ast.ExprStmt (methodsChain "x" (q "'/v1/users'") "handler")]))].

(** C1: on a tree whose only file holds the chain
    [x.HandleFunc("/v1/users", handler).Methods("GET","POST")], ScanDir
    returns three endpoints for it: GET and POST, and a third one with
    method ANY, same path and handler. *)
Theorem methods_chain_emits_any :
  let r := ScanDir in_order "/srv"
             (filepath.Directory "srv" [filepath.RegularFile "main.go" (Some chainFile)])
             None in
  resultErr r = filepath.Nil
  /\ result r
     = [ restEndpoint "GET" "/v1/users" "/srv/main.go" "handler" "" (Some 0);
         restEndpoint "POST" "/v1/users" "/srv/main.go" "handler" "" (Some 1);
         restEndpoint "ANY" "/v1/users" "/srv/main.go" "handler" "" (Some 2) ].
Proof. split; vm_compute; reflexivity. Qed.

(** ** Visitors that record a hit and do not descend below it *)
Section Hits.
Import ast.
Context {S : Type} (hit : Node -> bool) (upd : Node -> S -> S).

Definition hitVisitor (n : Node) (s : S) : bool * S :=
  if hit n then (false, upd n s) else (true, s).

(** The nodes on which such a visitor fires, in the order of the traversal. *)
Definition collectVisitor (n : Node) (acc : list Node) : bool * list Node :=
  if hit n then (false, acc ++ [n]) else (true, acc).
Definition hits (n : Node) : list Node := Inspect collectVisitor n [].

Lemma collect_app n : forall acc, Inspect collectVisitor n acc = acc ++ hits n.
Proof.
  induction n as [n IH] using Node_children_ind. intros acc.
  unfold hits. rewrite !Inspect_unfold. unfold collectVisitor at 1 3.
  destruct (hit n); [reflexivity|].
  assert (L : forall l, Forall (fun n => forall acc, Inspect collectVisitor n acc = acc ++ hits n) l ->
            forall acc, InspectList collectVisitor l acc
                        = acc ++ InspectList collectVisitor l []).
  { clear. intros l Hl. induction Hl as [|x l Hx _ IHl]; intros acc.
    - cbn. rewrite app_nil_r. reflexivity.
    - rewrite !InspectList_cons. rewrite IHl, (IHl (Inspect _ x [])), !Hx.
      rewrite app_nil_l, app_assoc. reflexivity. }
  apply L, IH.
Qed.

Lemma collectList l : forall acc,
  InspectList collectVisitor l acc = acc ++ concat (map hits l).
Proof.
  induction l as [|x l IHl]; intros acc.
  - cbn. rewrite app_nil_r. reflexivity.
  - rewrite InspectList_cons, IHl, collect_app. cbn [map concat].
    rewrite app_assoc. reflexivity.
Qed.

(** [hits] is the pre-order list of the nodes that satisfy [hit], without
    those below another one. *)
Lemma hits_unfold n :
  hits n = if hit n then [n] else concat (map hits (children n)).
Proof.
  unfold hits at 1. rewrite Inspect_unfold. unfold collectVisitor at 1.
  destruct (hit n); [reflexivity|]. rewrite collectList. reflexivity.
Qed.

(** The state after the traversal: the updates of the hits, in order. *)
Lemma Inspect_hits n : forall s,
  Inspect hitVisitor n s = fold_left (fun s c => upd c s) (hits n) s.
Proof.
  induction n as [n IH] using Node_children_ind. intros s.
  rewrite Inspect_unfold, hits_unfold. unfold hitVisitor at 1.
  destruct (hit n); [reflexivity|].
  revert s. induction IH as [|x l Hx _ IHl]; intros s; [reflexivity|].
  rewrite InspectList_cons. cbn [map concat]. rewrite fold_left_app, <- Hx. apply IHl.
Qed.
End Hits.

(** The calls that DetectJSONBody takes for a body idiom. *)
Definition isBodyIdiom (n : ast.Node) : bool :=
  match n with
  | ast.CallExpr _ _ =>
      checkGinJSONBinding n || checkJSONDecoder n || checkJSONUnmarshal n || checkIOReadAll n
  | _ => false
  end.

Definition bodyIdiomCalls (body : ast.Node) : list ast.Node := hits isBodyIdiom body.

Section Detect.
Import ast.
Variable range : forall V : Type, entries V -> entries V.

Lemma DetectJSONBody_visit_hit g structInfo n result :
  DetectJSONBody_visit range g structInfo n result
  = hitVisitor isBodyIdiom
      (fun c r => BodyDetectionResult.mk true (generateSmartBodyExample range g c structInfo)
                    (BodyDetectionResult.StructName r)) n result.
Proof.
  unfold DetectJSONBody_visit, hitVisitor, isBodyIdiom. destruct n; try reflexivity.
  destruct (checkGinJSONBinding _); [reflexivity|].
  destruct (checkJSONDecoder _); [reflexivity|].
  destruct (checkJSONUnmarshal _); [reflexivity|].
  destruct (checkIOReadAll _); reflexivity.
Qed.

Lemma Inspect_ext {S} (f f' : Node -> S -> bool * S) :
  (forall n s, f n s = f' n s) -> forall n s, Inspect f n s = Inspect f' n s.
Proof.
  intros E n. induction n as [n IH] using Node_children_ind. intros s.
  rewrite !Inspect_unfold, E. destruct (f' n s) as [[] s1]; [|reflexivity].
  revert s1. induction IH as [|x l Hx _ IHl]; intros s1; [reflexivity|].
  rewrite !InspectList_cons, Hx. apply IHl.
Qed.

(** The result of DetectJSONBody, from the idiom calls of the body. *)
Lemma DetectJSONBody_hits g name body :
  DetectJSONBody range g (FuncDecl name (Some body))
  = match last (bodyIdiomCalls body) with
    | Some call =>
        BodyDetectionResult.mk true
          (generateSmartBodyExample range g call (scanStructUsage body)) ""
    | None => noBody
    end.
Proof.
  unfold DetectJSONBody.
  rewrite (Inspect_ext _ _ (DetectJSONBody_visit_hit g (scanStructUsage body))).
  rewrite Inspect_hits. fold (bodyIdiomCalls body).
  destruct (bodyIdiomCalls body) as [|c l] using rev_ind; [reflexivity|].
  rewrite fold_left_app, last_snoc. cbn [fold_left]. f_equal.
  assert (Hn : BodyDetectionResult.StructName noBody = "") by reflexivity.
  revert Hn. clear. generalize noBody as r.
  induction l as [|c l IHl]; intros r Hn; [exact Hn|].
  cbn [fold_left]. apply IHl. exact Hn.
Qed.

(** C3 (amended): DetectJSONBody does not stop at the first matching call.
    The traversal does not descend into a call that matches a body idiom, and
    goes on after it; each match overwrites the result.  The result is the
    body synthesised from the last matching call of the traversal, and no
    body when no call matches. *)
Theorem DetectJSONBody_last_match g name body :
  DetectJSONBody range g (FuncDecl name (Some body))
  = match last (bodyIdiomCalls body) with
    | Some call =>
        BodyDetectionResult.mk true
          (generateSmartBodyExample range g call (scanStructUsage body)) ""
    | None => noBody
    end.
Proof.
  exact (DetectJSONBody_hits g name body).
Qed.
End Detect.

(** [json.NewDecoder(r.Body).Decode(&v)] *)
Definition decodeInto (v : string) : ast.Node :=
  ast.CallExpr
    (ast.SelectorExpr
       (ast.CallExpr (ast.SelectorExpr (ast.Ident "json") "NewDecoder")
                     [ast.SelectorExpr (ast.Ident "r") "Body"])
       "Decode")
    [ast.UnaryExpr "&" (ast.Ident v)].

(** A handler with two body idioms:
    [c.ShouldBindJSON(&userRequest); json.NewDecoder(r.Body).Decode(&deleteRequest)]. *)
Definition twoIdiomsBody : ast.Node :=
  ast.BlockStmt [ast.ExprStmt bindUserRequest; ast.ExprStmt (decodeInto "deleteRequest")].
Definition twoIdiomsFn : ast.Node := ast.FuncDecl "handler" (Some twoIdiomsBody).

(** C3, as stated, fails on [twoIdiomsFn]: both calls match, the first in
    syntax order is the binding of [userRequest], and the body returned is
    the one of the later call on [deleteRequest]. *)
Lemma DetectJSONBody_not_first_match :
  bodyIdiomCalls twoIdiomsBody = [bindUserRequest; decodeInto "deleteRequest"]
  /\ BodyDetectionResult.BodyExample (DetectJSONBody in_order None twoIdiomsFn)
     = generateSmartBodyExample in_order None (decodeInto "deleteRequest") None
  /\ BodyDetectionResult.BodyExample (DetectJSONBody in_order None twoIdiomsFn)
     <> generateSmartBodyExample in_order None bindUserRequest None.
Proof. repeat split; try reflexivity. vm_compute. discriminate. Qed.

(** ** The local struct hint *)

(** The struct type a node declares inline, as scanStructUsage sees it: the
    first variable specification of a declaration with a struct type, or the
    first composite literal of a struct type on the right of an assignment. *)
Definition inlineStructOf (n : ast.Node) : option (list ast.Node) :=
  match n with
  | ast.GenDecl specs =>
      first_match (fun spec =>
        match spec with
        | ast.ValueSpec _ (Some (ast.StructType fields)) _ => Some fields
        | _ => None
        end) specs
  | ast.AssignStmt _ rhs =>
      first_match (fun r =>
        match r with
        | ast.CompositeLit (Some (ast.StructType fields)) _ => Some fields
        | _ => None
        end) rhs
  | _ => None
  end.

Definition declaresInlineStruct (n : ast.Node) : bool :=
  match inlineStructOf n with Some _ => true | None => false end.

Definition inlineStructDecls (body : ast.Node) : list ast.Node :=
  hits declaresInlineStruct body.

Lemma scanStructUsage_visit_hit n s :
  scanStructUsage_visit n s
  = hitVisitor declaresInlineStruct
      (fun d _ => (fun fields => analyzeInlineStruct fields "InlineStruct") <$> inlineStructOf d)
      n s.
Proof.
  unfold scanStructUsage_visit, hitVisitor, declaresInlineStruct, inlineStructOf.
  destruct n; try reflexivity;
    match goal with |- context [first_match ?f ?l] => destruct (first_match f l) end;
    reflexivity.
Qed.

(** scanStructUsage returns the last inline struct of the traversal. *)
Lemma scanStructUsage_last body :
  scanStructUsage body
  = d ← last (inlineStructDecls body);
    (fun fields => analyzeInlineStruct fields "InlineStruct") <$> inlineStructOf d.
Proof.
  unfold scanStructUsage.
  rewrite (Inspect_ext _ _ scanStructUsage_visit_hit), Inspect_hits.
  fold (inlineStructDecls body).
  destruct (inlineStructDecls body) as [|d l _] using rev_ind; [reflexivity|].
  rewrite fold_left_app, last_snoc. reflexivity.
Qed.

(** ** Bodies from the project analysis *)

(** The identifiers generateBodyFromProjectAnalysis compares with the
    project structs: the operands of the first and of the second argument. *)
Definition candidateTargets (call : ast.Node) : list string :=
  match call with
  | ast.CallExpr _ args =>
      omap id [unaryIdent (args !! 0); unaryIdent (args !! 1)]
  | _ => []
  end.

(** Every DTO pattern of the analysis is the name of one of its structs. *)
Definition dtoConsistent (analysis : ProjectAnalysis.t) : Prop :=
  forall dto, In dto (ArchitecturePattern.DTOPatterns (ProjectAnalysis.ArchPattern analysis)) ->
  exists kv, In kv (ProjectAnalysis.Structs analysis) /\ StructDefinition.Name kv.2 = dto.

(** No struct of the project matches a target of the call. *)
Definition noStructMatches (analysis : ProjectAnalysis.t) (call : ast.Node) : Prop :=
  forall name kv, In name (candidateTargets call) ->
  In kv (ProjectAnalysis.Structs analysis) -> structMatches name kv.2 = false.

Section ProjectBodies.
Variable range : forall V : Type, entries V -> entries V.
Hypothesis range_order : is_order range.

Lemma range_In {V : Type} (m : entries V) (kv : string * V) :
  In kv (range V m) -> In kv m.
Proof.
  intros H. apply list_elem_of_In. rewrite <- (range_order V m). apply list_elem_of_In, H.
Qed.

Lemma matchingStruct_none analysis call name :
  noStructMatches analysis call -> In name (candidateTargets call) ->
  matchingStruct range analysis name = None.
Proof.
  intros Hn Hin. unfold matchingStruct. apply first_match_none. intros kv Hkv.
  rewrite (Hn name kv Hin (range_In _ _ Hkv)). reflexivity.
Qed.

Lemma detectArchitecturePattern_DTOPatterns analysis :
  ArchitecturePattern.DTOPatterns (detectArchitecturePattern range analysis)
  = detectDTOPatterns range analysis.
Proof.
  unfold detectArchitecturePattern.
  repeat match goal with
         | |- context [if PrimFloat.ltb ?a ?b then _ else _] =>
             destruct (PrimFloat.ltb a b)
         end; reflexivity.
Qed.

(** The analysis an AnalyzeProject call returns is consistent. *)
Lemma AnalyzeProject_dtoConsistent root tree analysis :
  AnalyzeProject range root tree = Some analysis -> dtoConsistent analysis.
Proof.
  unfold AnalyzeProject.
  destruct (filepath.WalkDir _ root tree emptyAnalysis) as [a []]; try discriminate.
  intros [= <-] dto. cbn [ProjectAnalysis.ArchPattern ProjectAnalysis.Structs].
  rewrite detectArchitecturePattern_DTOPatterns. unfold detectDTOPatterns.
  cbn [ProjectAnalysis.Structs].
  rewrite <- list_elem_of_In, list_elem_of_omap. intros (kv & Hkv & Hdto).
  exists kv. split; [apply range_In, list_elem_of_In, Hkv|].
  destruct (_ || _) in Hdto; [|discriminate]. injection Hdto as <-. reflexivity.
Qed.

Lemma generateBodyFromProjectAnalysis_no_match call analysis :
  dtoConsistent analysis -> noStructMatches analysis call ->
  generateBodyFromProjectAnalysis range call analysis = "".
Proof.
  intros Hc Hn. unfold generateBodyFromProjectAnalysis.
  destruct call; try reflexivity.
  assert (Hd : forall target, In target (candidateTargets (ast.CallExpr call Args)) ->
    first_match (fun dtoPattern : string =>
      if strings.Contains (strings.ToLower dtoPattern) (strings.ToLower target)
      then get (ProjectAnalysis.Structs analysis) dtoPattern else None)
      (ArchitecturePattern.DTOPatterns (ProjectAnalysis.ArchPattern analysis)) = None).
  { intros target Ht. apply first_match_none. intros dto Hdto.
    destruct (strings.Contains _ _) eqn:E; [|reflexivity].
    destruct (Hc dto Hdto) as (kv & Hkv & Hname).
    pose proof (Hn target kv Ht Hkv) as Hm. unfold structMatches in Hm.
    rewrite Hname, E in Hm. discriminate Hm. }
  pose proof (fun name => matchingStruct_none analysis _ name Hn) as Hm.
  unfold candidateTargets in Hd, Hm. cbn [omap] in Hd, Hm.
  destruct (unaryIdent (Args !! 0)) as [n0|]; cbn [id mbind option_bind] in Hd, Hm;
    destruct (unaryIdent (Args !! 1)) as [n1|]; cbn [id mbind option_bind] in Hd, Hm;
    cbn [fst snd];
    rewrite ?(Hm n0), ?(Hm n1) by (cbn; tauto); cbn [fst snd];
    try reflexivity;
    match goal with
    | |- context [String.eqb ?n ""] =>
        destruct (String.eqb n ""); [reflexivity|rewrite (Hd n) by (cbn; tauto); reflexivity]
    end.
Qed.
End ProjectBodies.

(** ** Bodies from a local inline struct *)

(** The fields of [struct { Name string `json:"name"`; Age int `json:"age"` }] *)
Definition nameAgeFields : list ast.Node :=
  [ast.Field ["Name"] (ast.Ident "string") (Some (q "`json:'name'`"));
   ast.Field ["Age"] (ast.Ident "int") (Some (q "`json:'age'`"))].

(** [var v struct { ... }] as a statement *)
Definition varStruct (v : string) (fields : list ast.Node) : ast.Node :=
  ast.DeclStmt (ast.GenDecl [ast.ValueSpec [v] (Some (ast.StructType fields)) []]).

(** The project analysis has nothing for the call: there is no analysis, or
    it is consistent and none of its structs matches a target of the call. *)
Definition noProjectStruct (g : option ProjectAnalysis.t) (call : ast.Node) : Prop :=
  match g with
  | None => True
  | Some analysis => dtoConsistent analysis /\ noStructMatches analysis call
  end.

Section InlineStruct.
Variable range : forall V : Type, entries V -> entries V.
Hypothesis range_order : is_order range.

(** C4 (amended): when the last inline struct declaration of the traversal
    of the function body is one of type
    [struct { Name string `json:"name"`; Age int `json:"age"` }], the last
    body-idiom call of the traversal is [call], and no project-wide struct
    matches a target of [call], the synthesised body is exactly
    [{"name":"string","age":0}], the fields in the order of declaration. *)
Theorem inline_struct_body (g : option ProjectAnalysis.t) (name : string)
    (body decl call : ast.Node) :
  last (inlineStructDecls body) = Some decl ->
  inlineStructOf decl = Some nameAgeFields ->
  last (bodyIdiomCalls body) = Some call ->
  noProjectStruct g call ->
  DetectJSONBody range g (ast.FuncDecl name (Some body))
  = BodyDetectionResult.mk true (q "{'name':'string','age':0}") "".
Proof.
  intros Hd Hf Hc Hg. rewrite DetectJSONBody_hits, Hc, scanStructUsage_last, Hd.
  cbn [mbind option_bind]. rewrite Hf. cbn [fmap option_fmap option_map].
  f_equal. unfold generateSmartBodyExample.
  assert (Hp : match g with
               | Some analysis => generateBodyFromProjectAnalysis range call analysis
               | None => ""
               end = "").
  { destruct g as [analysis|]; [|reflexivity]. destruct Hg as [Hcons Hno].
    apply generateBodyFromProjectAnalysis_no_match; assumption. }
  rewrite Hp. reflexivity.
Qed.
End InlineStruct.

(** [var person struct {...}; json.NewDecoder(r.Body).Decode(&person)] *)
Definition personBody : ast.Node :=
  ast.BlockStmt [varStruct "person" nameAgeFields; ast.ExprStmt (decodeInto "person")].

Lemma inline_struct_body_witness :
  DetectJSONBody in_order None (ast.FuncDecl "CreatePerson" (Some personBody))
  = BodyDetectionResult.mk true (q "{'name':'string','age':0}") "".
Proof.
  apply (inline_struct_body in_order in_order_is_order None "CreatePerson" personBody
           (ast.GenDecl [ast.ValueSpec ["person"] (Some (ast.StructType nameAgeFields)) []])
           (decodeInto "person")); [reflexivity|reflexivity|reflexivity|exact I].
Defined.

(** The same function with one more declaration after the call:
    [var audit struct { At string `json:"at"` }]. *)
Definition personAuditBody : ast.Node :=
  ast.BlockStmt
    [varStruct "person" nameAgeFields;
     ast.ExprStmt (decodeInto "person");
     varStruct "audit"
       [ast.Field ["At"] (ast.Ident "string") (Some (q "`json:'at'`"))]].

(** C4, as stated, fails on this function: it declares the variable
    [person] of the inline struct type and passes it to the decode idiom,
    there is no project struct at all, and the synthesised body is that of
    the struct of [audit]. *)
Lemma inline_struct_body_not_always :
  inlineStructOf (ast.GenDecl [ast.ValueSpec ["person"] (Some (ast.StructType nameAgeFields)) []])
  = Some nameAgeFields
  /\ bodyIdiomCalls personAuditBody = [decodeInto "person"]
  /\ BodyDetectionResult.BodyExample
       (DetectJSONBody in_order None (ast.FuncDecl "CreatePerson" (Some personAuditBody)))
     = q "{'at':'string'}"
  /\ BodyDetectionResult.BodyExample
       (DetectJSONBody in_order None (ast.FuncDecl "CreatePerson" (Some personAuditBody)))
     <> q "{'name':'string','age':0}".
Proof. repeat split; try reflexivity. vm_compute. discriminate. Qed.
(** ** The heap: allocation leaves the old objects in place *)
Lemma load_map_app (h ext : Heap) (l : loc) :
  l < List.length h -> load_map (h ++ ext) (Some l) = load_map h (Some l).
Proof. intros H. unfold load_map. rewrite lookup_app_l by exact H. reflexivity. Qed.

Lemma load_slice_app (h ext : Heap) (l : loc) :
  l < List.length h -> load_slice (h ++ ext) (Some l) = load_slice h (Some l).
Proof. intros H. unfold load_slice. rewrite lookup_app_l by exact H. reflexivity. Qed.

Lemma load_map_new (h ext : Heap) (m : gmap string string) :
  load_map ((h ++ [MapObj m]) ++ ext) (Some (List.length h)) = m.
Proof.
  unfold load_map. rewrite <- app_assoc. cbn [app]. rewrite list_lookup_middle by reflexivity.
  reflexivity.
Qed.

Lemma load_slice_new (h ext : Heap) (ts : list string) :
  load_slice ((h ++ [SliceObj ts]) ++ ext) (Some (List.length h)) = ts.
Proof.
  unfold load_slice. rewrite <- app_assoc. cbn [app]. rewrite list_lookup_middle by reflexivity.
  reflexivity.
Qed.

Lemma load_map_last (h : Heap) (m : gmap string string) :
  load_map (h ++ [MapObj m]) (Some (List.length h)) = m.
Proof. rewrite <- (app_nil_r (h ++ [MapObj m])). apply load_map_new. Qed.

Lemma load_slice_last (h : Heap) (ts : list string) :
  load_slice (h ++ [SliceObj ts]) (Some (List.length h)) = ts.
Proof. rewrite <- (app_nil_r (h ++ [SliceObj ts])). apply load_slice_new. Qed.

(** ** The annotation parser: one set of accumulators for all routes *)

(** What the endpoint made for the route [r] holds, in the heap [h'] after
    the group, when the accumulators are [a] in the heap [h] the loop of
    the routes starts from. *)
Definition madeFor (path : string) (a : Acc) (h h' : Heap) (r : route.t) (e : Endpoint)
    : Prop :=
  Method e = route.method r /\ Path e = route.path r /\ Desc e = route.desc r
  /\ SourceFile e = path
  /\ BodyRaw e = accBody a
  /\ load_map h' (Headers e) = load_map h (Some (accHeaders a))
  /\ load_slice h' (Tags e) = accTags a
  /\ (exists l, Headers e = Some l /\ List.length h <= l < List.length h')
  /\ match Tags e with
     | Some t => List.length h <= t < List.length h'
     | None => accTags a = []
     end.

(** The references of an endpoint *)
Definition refs (e : Endpoint) : list loc :=
  match Headers e with Some l => [l] | None => [] end
  ++ match Tags e with Some l => [l] | None => [] end.

Lemma endpointOfRoute_spec path a r h accG res :
  accHeaders a < List.length h ->
  exists h1 accG1 e,
    endpointOfRoute path a r (h, accG, res) = (h1, accG1, res ++ [e])
    /\ (exists ext, h1 = h ++ ext)
    /\ madeFor path a h h1 r e
    /\ NoDup (refs e).
Proof.
  intros Ha. unfold endpointOfRoute, copyTags, alloc.
  set (m := load_map h (Some (accHeaders a))).
  destruct (accTags a) as [|t ts] eqn:Et;
    destruct (String.eqb (route.routeType r) "GraphQL");
    (eexists _, _, _; split; [reflexivity|]).
  1,2: split; [exists [MapObj m]; reflexivity|].
  3,4: split; [exists [MapObj m; SliceObj (t :: ts)]; rewrite <- app_assoc; reflexivity|].
  all: split;
    [|unfold refs; cbn [Headers Tags app];
      first [ apply NoDup_singleton
            | apply NoDup_cons; split; [|apply NoDup_singleton];
              rewrite list_elem_of_singleton, length_app; cbn [List.length]; lia ]].
  all: unfold madeFor; cbn [Method Path Desc SourceFile BodyRaw Headers Tags];
    rewrite ?Et; repeat split; try reflexivity.
  all: try (eexists; split; [reflexivity|]).
  all: try first [ exact (load_map_last _ _) | exact (load_map_new _ _ _)
                 | exact (load_slice_last _ _) ].
  all: rewrite ?length_app; cbn [List.length]; lia.
Qed.

Lemma madeFor_extend path a h0 h h' ext r e :
  accHeaders a < List.length h0 ->
  (exists mid, h = h0 ++ mid) ->
  h' = h ++ ext ->
  madeFor path a h0 h r e -> madeFor path a h0 h' r e.
Proof.
  intros Ha [mid Hmid] -> (Hm & Hp & Hd & Hs & Hb & Hh & Ht & (l & Hl & Hlb) & Htb).
  unfold madeFor. repeat split; try assumption.
  - rewrite Hl in *. rewrite load_map_app by lia. exact Hh.
  - destruct (Tags e) as [t|]; [|exact Ht]. rewrite load_slice_app by lia. exact Ht.
  - exists l. split; [exact Hl|]. rewrite length_app. lia.
  - destruct (Tags e) as [t|]; [|exact Htb]. rewrite length_app. lia.
Qed.

Lemma madeFor_rebase path a h0 h h' r e :
  accHeaders a < List.length h0 ->
  (exists mid, h = h0 ++ mid) ->
  madeFor path a h h' r e -> madeFor path a h0 h' r e.
Proof.
  intros Ha [mid ->] (Hm & Hp & Hd & Hs & Hb & Hh & Ht & (l & Hl & Hlb) & Htb).
  unfold madeFor. repeat split; try assumption.
  - rewrite Hh. apply load_map_app. exact Ha.
  - exists l. split; [exact Hl|]. rewrite length_app in Hlb. lia.
  - destruct (Tags e) as [t|]; [|exact Htb]. rewrite length_app in Htb. lia.
Qed.

(** The references an endpoint made in the loop holds are new ones. *)
Lemma madeFor_refs path a h h' r e :
  madeFor path a h h' r e -> Forall (fun l => List.length h <= l < List.length h') (refs e).
Proof.
  intros (_ & _ & _ & _ & _ & _ & _ & (l & Hl & Hlb) & Htb). unfold refs. rewrite Hl.
  destruct (Tags e); cbn [app]; repeat (apply List.Forall_cons; [assumption|]);
    apply List.Forall_nil.
Qed.

Lemma madeFor_all_refs path a h h' routes new :
  Forall2 (madeFor path a h h') routes new ->
  Forall (fun l => List.length h <= l < List.length h') (concat (map refs new)).
Proof.
  induction 1 as [|r e routes new Hm _ IH]; [constructor|].
  cbn [map concat]. apply Forall_app. split; [|exact IH].
  eapply madeFor_refs, Hm.
Qed.

Lemma routes_loop path a routes : forall h accG res,
  accHeaders a < List.length h ->
  exists h' accG' new,
    fold_left (fun s r => endpointOfRoute path a r s) routes (h, accG, res)
    = (h', accG', res ++ new)
    /\ (exists ext, h' = h ++ ext)
    /\ Forall2 (madeFor path a h h') routes new
    /\ NoDup (concat (map refs new)).
Proof.
  induction routes as [|r routes IH]; intros h accG res Ha.
  - exists h, accG, []. rewrite app_nil_r.
    repeat split; [exists []; symmetry; apply app_nil_r|constructor|constructor].
  - destruct (endpointOfRoute_spec path a r h accG res Ha)
      as (h1 & accG1 & e & Hstep & [ext1 Hext1] & Hmade & Hnd).
    assert (Ha1 : accHeaders a < List.length h1) by (rewrite Hext1, length_app; lia).
    destruct (IH h1 accG1 (res ++ [e]) Ha1)
      as (h' & accG' & new & Hfold & [ext Hext] & Hall & Hnd').
    exists h', accG', (e :: new). cbn [fold_left]. rewrite Hstep, Hfold, <- app_assoc.
    split; [reflexivity|].
    split; [exists (ext1 ++ ext); rewrite Hext, Hext1, app_assoc; reflexivity|].
    split.
    + constructor.
      * eapply madeFor_extend; [exact Ha|exists ext1; exact Hext1|exact Hext|exact Hmade].
      * eapply Forall2_impl; [exact Hall|]. intros r' e' H'.
        eapply madeFor_rebase; [exact Ha|exists ext1; exact Hext1|exact H'].
    + cbn [map concat]. apply NoDup_app. split; [exact Hnd|]. split; [|exact Hnd'].
      intros l Hl Hl'.
      pose proof (madeFor_refs _ _ _ _ _ _ Hmade) as Hr.
      pose proof (madeFor_all_refs _ _ _ _ _ _ Hall) as Hr'.
      rewrite Forall_forall in Hr, Hr'.
      specialize (Hr l Hl). specialize (Hr' l Hl'). lia.
Qed.

(** The accumulators of a group whose scan starts in the heap [h]: the map
    of the headers is the object made first, at [length h]. *)
Definition groupAcc (text : string) (h : Heap) : Heap * Acc :=
  fold_left (fun s line => collectLine line s) (annotationLines text)
            (h ++ [MapObj ∅], mkAcc (List.length h) "" [] None).

Lemma store_map_length l k v (h : Heap) : List.length (store_map l k v h) = List.length h.
Proof.
  unfold store_map. destruct (h !! l) as [[m|ts]|]; try reflexivity. apply length_insert.
Qed.

Lemma collectLine_keeps line h a :
  accHeaders (collectLine line (h, a)).2 = accHeaders a
  /\ List.length (collectLine line (h, a)).1 = List.length h.
Proof.
  unfold collectLine.
  repeat match goal with
         | |- context [match regexp.FindStringSubmatch ?r ?l with _ => _ end] =>
             destruct (regexp.FindStringSubmatch r l)
         | |- context [if ?b then _ else _] => destruct b
         end; cbn [fst snd accHeaders]; rewrite ?store_map_length; split; reflexivity.
Qed.

Lemma groupAcc_keeps text h :
  accHeaders (groupAcc text h).2 = List.length h
  /\ List.length (groupAcc text h).1 = S (List.length h).
Proof.
  unfold groupAcc.
  assert (G : forall lines s,
    accHeaders (fold_left (fun s line => collectLine line s) lines s).2 = accHeaders s.2
    /\ List.length (fold_left (fun s line => collectLine line s) lines s).1
       = List.length s.1).
  { induction lines as [|line lines IH]; intros [h0 a0]; [split; reflexivity|].
    cbn [fold_left]. destruct (IH (collectLine line (h0, a0))) as [I1 I2].
    destruct (collectLine_keeps line h0 a0) as [K1 K2].
    rewrite I1, I2, K1, K2. split; reflexivity. }
  destruct (G (annotationLines text) (h ++ [MapObj ∅], mkAcc (List.length h) "" [] None))
    as [G1 G2].
  rewrite G1, G2. cbn [fst snd accHeaders]. rewrite length_app. cbn. split; [reflexivity|lia].
Qed.

(** The endpoints of one comment group. *)
Lemma scanGroup_spec path text h res :
  let '(h1, a) := groupAcc text h in
  exists h' new,
    scanGroup path text (h, res) = (h', res ++ new)
    /\ Forall2 (madeFor path a h1 h') (concat (map routesOfLine (annotationLines text))) new
    /\ NoDup (concat (map refs new)).
Proof.
  pose proof (groupAcc_keeps text h) as [K1 K2].
  destruct (groupAcc text h) as [h1 a] eqn:E. cbn [fst snd] in K1, K2.
  destruct (routes_loop path a (concat (map routesOfLine (annotationLines text)))
              h1 (accGraphQL a) res) as (h' & accG' & new & Hfold & _ & Hall & Hnd).
  { rewrite K1, K2. lia. }
  exists h', new. split; [|split; assumption].
  unfold scanGroup, alloc. unfold groupAcc in E. rewrite E, Hfold. reflexivity.
Qed.

(** The four lines of the example. *)
Definition usersLines : list string :=
  [ "@route POST /api/users Create user";
    "@header Content-Type: application/json";
    q "@body {'a':1}";
    "@tag users" ].

(** What the example group must yield: one endpoint, with these fields. *)
Definition yieldsUsersEndpoint (lines : list string) : Prop :=
  match scanGroup "users.go" (strings.Join lines (String "010" "")) ([], []) with
  | (h, [e]) =>
      Method e = "POST" /\ Path e = "/api/users"
      /\ load_map h (Headers e) !! "Content-Type" = Some "application/json"
      /\ BodyRaw e = q "{'a':1}"
      /\ load_slice h (Tags e) = ["users"]
  | _ => False
  end.

(** C8: a comment group made of the four lines of the example, in any
    order, yields exactly one endpoint: POST /api/users, whose header map
    has Content-Type: application/json, whose body is the literal and whose
    tags are [users].  And for every comment group, scanned from any heap:
    one endpoint is made for each route of the group, in order, with the
    method, path and description of the route; every one of them holds the
    accumulated body, a header map equal to the accumulated map and a tag
    list equal to the accumulated list; and the references to these maps and
    lists are all new and pairwise distinct: no two endpoints share one, and
    none is the accumulator. *)
Theorem annotation_group :
  Forall yieldsUsersEndpoint (permutations usersLines)
  /\ forall path text h res,
       let '(h1, a) := groupAcc text h in
       exists h' new,
         scanGroup path text (h, res) = (h', res ++ new)
         /\ Forall2 (madeFor path a h1 h')
                    (concat (map routesOfLine (annotationLines text))) new
         /\ NoDup (concat (map refs new)).
Proof.
  split; [|exact scanGroup_spec].
  let l := eval vm_compute in (permutations usersLines) in
  change (permutations usersLines) with l.
  repeat (apply List.Forall_cons; [vm_compute; repeat split; reflexivity|]).
  apply List.Forall_nil.
Qed.

(** ** The files a walk reaches *)

(** The Go source files of the tree at [path] outside the directories that
    [skip] names, in the order of the walk, each with the result of parsing
    it. *)
Fixpoint sourceFiles (skip : string -> bool) (path : string) (d : filepath.DirEntry)
    {struct d} : list (string * option File) :=
  match d with
  | filepath.RegularFile _ parsed => if isGoSource path then [(path, parsed)] else []
  | filepath.Directory name entries =>
      if skip name then []
      else
        (fix each (l : list filepath.DirEntry) : list (string * option File) :=
           match l with
           | [] => []
           | d1 :: l' => sourceFiles skip (filepath.Join path (filepath.Name d1)) d1 ++ each l'
           end) entries
  end.

(** A walk that handles each Go source file with [step] and stops with an
    error at the first one that does not parse. *)
Definition fileWalk {S : Type} (skip : string -> bool) (msg : string)
    (step : string -> File -> S -> S)
    (path : string) (d : filepath.DirEntry) (s : S) : S * filepath.error :=
  match d with
  | filepath.Directory name _ =>
      (s, if skip name then filepath.SkipDir else filepath.Nil)
  | filepath.RegularFile _ parsed =>
      if negb (isGoSource path) then (s, filepath.Nil)
      else match parsed with
           | None => (s, filepath.Err (msg +:+ path))
           | Some file => (step path file s, filepath.Nil)
           end
  end.

(** The files in order, up to the first that does not parse. *)
Fixpoint runFiles {S : Type} (msg : string) (step : string -> File -> S -> S)
    (files : list (string * option File)) (s : S) : S * filepath.error :=
  match files with
  | [] => (s, filepath.Nil)
  | (path, Some file) :: rest => runFiles msg step rest (step path file s)
  | (path, None) :: _ => (s, filepath.Err (msg +:+ path))
  end.

Section DirEntryInduction.
Variable P : filepath.DirEntry -> Prop.
Hypothesis file_case : forall name parsed, P (filepath.RegularFile name parsed).
Hypothesis dir_case : forall name entries, Forall P entries -> P (filepath.Directory name entries).

Fixpoint DirEntry_tree_ind (d : filepath.DirEntry) : P d :=
  match d with
  | filepath.RegularFile name parsed => file_case name parsed
  | filepath.Directory name entries =>
      dir_case name entries
        ((fix all (l : list filepath.DirEntry) : Forall P l :=
            match l with
            | [] => @List.Forall_nil _ P
            | x :: l' => @List.Forall_cons _ P x l' (DirEntry_tree_ind x) (all l')
            end) entries)
  end.
End DirEntryInduction.

Section FileWalk.
Context {S : Type} (skip : string -> bool) (msg : string) (step : string -> File -> S -> S).

Lemma runFiles_app files1 files2 s :
  runFiles msg step (files1 ++ files2) s
  = match runFiles msg step files1 s with
    | (s1, filepath.Nil) => runFiles msg step files2 s1
    | r => r
    end.
Proof.
  revert s. induction files1 as [|[path [file|]] rest IH]; intros s; cbn; [reflexivity| |reflexivity].
  apply IH.
Qed.

Lemma runFiles_error files s :
  match (runFiles msg step files s).2 with
  | filepath.SkipDir => False
  | _ => True
  end.
Proof.
  revert s. induction files as [|[path [file|]] rest IH]; intros s; cbn; [exact I| |exact I].
  apply IH.
Qed.

Lemma walkDir_fileWalk d : forall path s,
  filepath.walkDir (fileWalk skip msg step) path d s
  = runFiles msg step (sourceFiles skip path d) s.
Proof.
  induction d as [name parsed|name entries IH] using DirEntry_tree_ind; intros path s.
  - cbn. destruct (isGoSource path); cbn; [|reflexivity]. destruct parsed; reflexivity.
  - cbn [filepath.walkDir fileWalk sourceFiles]. destruct (skip name); [reflexivity|].
    revert s. induction IH as [|d1 l Hd1 _ IHl]; intros s; [reflexivity|].
    rewrite runFiles_app, Hd1.
    pose proof (runFiles_error
                  (sourceFiles skip (filepath.Join path (filepath.Name d1)) d1) s) as He.
    destruct (runFiles msg step _ s) as [s2 [| |m]]; cbn in He; [apply IHl|contradiction|reflexivity].
Qed.

Lemma WalkDir_fileWalk root tree s :
  filepath.WalkDir (fileWalk skip msg step) root tree s
  = runFiles msg step (sourceFiles skip root tree) s.
Proof.
  unfold filepath.WalkDir. rewrite walkDir_fileWalk.
  pose proof (runFiles_error (sourceFiles skip root tree) s) as He.
  destruct (runFiles msg step _ s) as [s2 [| |m]]; cbn in He; [reflexivity|contradiction|reflexivity].
Qed.

(** When every file parses, the walk is a fold over the files. *)
Definition parsedFiles (files : list (string * option File)) : list (string * File) :=
  omap (fun pf : string * option File => match pf.2 with Some f => Some (pf.1, f) | None => None end)
       files.

Lemma runFiles_parsed files s :
  Forall (fun pf : string * option File => is_Some pf.2) files ->
  runFiles msg step files s
  = (fold_left (fun s (pf : string * File) => step pf.1 pf.2 s) (parsedFiles files) s,
     filepath.Nil).
Proof.
  intros H. revert s. induction H as [|[path parsed] rest [file Hf] _ IH]; intros s;
    [reflexivity|]. cbn in Hf. subst parsed. cbn. apply IH.
Qed.

(** The error of a run only depends on the files. *)
Lemma runFiles_err files s :
  (runFiles msg step files s).2
  = match first_match (fun pf : string * option File =>
                         match pf.2 with None => Some pf.1 | Some _ => None end) files with
    | Some path => filepath.Err (msg +:+ path)
    | None => filepath.Nil
    end.
Proof.
  revert s. induction files as [|[path [file|]] rest IH]; intros s; cbn; [reflexivity| |reflexivity].
  apply IH.
Qed.

Lemma runFiles_failure files s :
  ~ Forall (fun pf : string * option File => is_Some pf.2) files ->
  exists path, (runFiles msg step files s).2 = filepath.Err (msg +:+ path)
               /\ first_match (fun pf : string * option File =>
                                 match pf.2 with None => Some pf.1 | Some _ => None end) files
                  = Some path.
Proof.
  intros H. rewrite runFiles_err.
  destruct (first_match _ files) as [path|] eqn:E; [exists path; split; reflexivity|].
  destruct H. clear s. induction files as [|[path [file|]] rest IH]; [constructor| |discriminate E].
  constructor; [eexists; reflexivity|]. apply IH. exact E.
Qed.
End FileWalk.

Section ScanDirFiles.
Variable range : forall V : Type, entries V -> entries V.

Lemma ScanDir_walk1_fileWalk g :
  ScanDir_walk1 range g
  = fileWalk skipsDir "parse "
      (fun _ file bodies => scanFunctionsForBodies range g file ∪ bodies).
Proof. reflexivity. Qed.

Lemma ScanDir_walk2_fileWalk bodies :
  ScanDir_walk2 bodies = fileWalk skipsDir "parse " (scanFile bodies).
Proof. reflexivity. Qed.

(** The global analysis a call works with. *)
Definition analysisOf (root : string) (tree : filepath.DirEntry)
    (g : option ProjectAnalysis.t) : option ProjectAnalysis.t :=
  match AnalyzeProject range root tree with
  | Some projectAnalysis => Some projectAnalysis
  | None => g
  end.

(** The function bodies of the first pass, over parsed files. *)
Definition bodiesOf (g : option ProjectAnalysis.t) (files : list (string * File))
    : gmap string string :=
  fold_left (fun bodies (pf : string * File) =>
               scanFunctionsForBodies range g pf.2 ∪ bodies) files ∅.

(** ScanDir, when every Go source file it reaches parses: the analysis, the
    bodies of all files, then the files one after the other. *)
Lemma ScanDir_parsed root tree g :
  let files := sourceFiles skipsDir root tree in
  Forall (fun pf : string * option File => is_Some pf.2) files ->
  let g' := analysisOf root tree g in
  let st := fold_left (fun st (pf : string * File) =>
                         scanFile (bodiesOf g' (parsedFiles files)) pf.1 pf.2 st)
                      (parsedFiles files) (mkState [] ∅ []) in
  ScanDir range root tree g = mkResult (endpoints st) (heap st) filepath.Nil g'.
Proof.
  intros files Hp g' st. unfold ScanDir. fold (analysisOf root tree g). fold g'.
  rewrite ScanDir_walk1_fileWalk, WalkDir_fileWalk. fold files.
  rewrite runFiles_parsed by exact Hp.
  rewrite ScanDir_walk2_fileWalk, WalkDir_fileWalk. fold files.
  rewrite runFiles_parsed by exact Hp. reflexivity.
Qed.

(** ScanDir, when some file does not parse: no endpoint, and the error of
    the first such file. *)
Lemma ScanDir_failure root tree g :
  ~ Forall (fun pf : string * option File => is_Some pf.2) (sourceFiles skipsDir root tree) ->
  exists path,
    first_match (fun pf : string * option File =>
                   match pf.2 with None => Some pf.1 | Some _ => None end)
                (sourceFiles skipsDir root tree) = Some path
    /\ ScanDir range root tree g
       = mkResult [] [] (filepath.Err ("parse " +:+ path)) (analysisOf root tree g).
Proof.
  intros Hp. unfold ScanDir. fold (analysisOf root tree g).
  rewrite ScanDir_walk1_fileWalk, WalkDir_fileWalk.
  match goal with
  | |- context [runFiles ?msg ?step ?files ?s] =>
      destruct (runFiles_failure msg step files s Hp) as (path & Hm & Hf);
      destruct (runFiles msg step files s) as [b e]
  end.
  cbn in Hm. subst e. exists path. split; [exact Hf|reflexivity].
Qed.
End ScanDirFiles.

(** ** Two runs of the traversal *)
Lemma Inspect_rel {S1 S2 : Type} (R : S1 -> S2 -> Prop)
    (f1 : ast.Node -> S1 -> bool * S1) (f2 : ast.Node -> S2 -> bool * S2) :
  (forall n s1 s2, R s1 s2 -> (f1 n s1).1 = (f2 n s2).1 /\ R (f1 n s1).2 (f2 n s2).2) ->
  forall n s1 s2, R s1 s2 -> R (ast.Inspect f1 n s1) (ast.Inspect f2 n s2).
Proof.
  intros Hf n. induction n as [n IH] using Node_children_ind. intros s1 s2 HR.
  rewrite !Inspect_unfold. destruct (Hf n s1 s2 HR) as [Hd Hs].
  destruct (f1 n s1) as [d1 t1], (f2 n s2) as [d2 t2]. cbn in Hd, Hs. subst d2.
  destruct d1; [|exact Hs].
  revert t1 t2 Hs. induction IH as [|x l Hx _ IHl]; intros t1 t2 Hs; [exact Hs|].
  rewrite !InspectList_cons. apply IHl, Hx, Hs.
Qed.

Lemma InspectList_rel {S1 S2 : Type} (R : S1 -> S2 -> Prop)
    (f1 : ast.Node -> S1 -> bool * S1) (f2 : ast.Node -> S2 -> bool * S2) :
  (forall n s1 s2, R s1 s2 -> (f1 n s1).1 = (f2 n s2).1 /\ R (f1 n s1).2 (f2 n s2).2) ->
  forall l s1 s2, R s1 s2 -> R (ast.InspectList f1 l s1) (ast.InspectList f2 l s2).
Proof.
  intros Hf l. induction l as [|x l IHl]; intros s1 s2 HR; [exact HR|].
  rewrite !InspectList_cons. apply IHl, Inspect_rel; assumption.
Qed.

(** ** Endpoints up to their body text *)
Definition eraseBody (e : Endpoint) : Endpoint :=
  mkEndpoint (Method e) (Path e) (SourceFile e) (Handler e) (Desc e) (Headers e)
             "" (Tags e) (Type_ e) (GraphQL e).

(** Two states that differ in the body texts of their endpoints at most. *)
Definition sameButBodies (st1 st2 : ScanState) : Prop :=
  heap st1 = heap st2 /\ seen st1 = seen st2
  /\ map eraseBody (endpoints st1) = map eraseBody (endpoints st2).

Lemma add_sameButBodies e1 e2 st1 st2 :
  eraseBody e1 = eraseBody e2 -> sameButBodies st1 st2 ->
  sameButBodies (add e1 st1) (add e2 st2).
Proof.
  intros He (Hh & Hs & Hl).
  destruct e1 as [m p f ha d hd b1 t ty gq], e2 as [m2 p2 f2 ha2 d2 hd2 b2 t2 ty2 gq2].
  unfold eraseBody in He. cbn in He. injection He as <- <- <- <- <- <- <- <- <-.
  unfold add, endpointKey, setMethod, setPath, setType_.
  cbn [Method Path SourceFile Handler Desc Headers BodyRaw Tags Type_ GraphQL].
  rewrite <- Hh, <- Hs.
  destruct (String.eqb m "");
    cbn [Method Path SourceFile Handler Desc Headers BodyRaw Tags Type_ GraphQL];
    destruct (strings.HasPrefix p "/");
    cbn [negb Method Path SourceFile Handler Desc Headers BodyRaw Tags Type_ GraphQL];
    destruct (String.eqb ty "");
    cbn [Method Path SourceFile Handler Desc Headers BodyRaw Tags Type_ GraphQL];
    (destruct (bool_decide _); [split; [|split]; assumption|]);
    (split; [|split]; cbn [heap seen endpoints]; [reflexivity|reflexivity|]);
    rewrite !map_app, Hl; reflexivity.
Qed.

Lemma addWithHeaders_sameButBodies (e1 e2 : option loc -> Endpoint) st1 st2 :
  (forall hdr, eraseBody (e1 hdr) = eraseBody (e2 hdr)) -> sameButBodies st1 st2 ->
  sameButBodies (addWithHeaders e1 st1) (addWithHeaders e2 st2).
Proof.
  intros He (Hh & Hs & Hl). unfold addWithHeaders, alloc. rewrite <- Hh.
  apply add_sameButBodies; [apply He|].
  split; [|split]; cbn [heap seen endpoints]; [reflexivity|assumption|assumption].
Qed.

Lemma sameButBodies_refl st : sameButBodies st st.
Proof. split; [|split]; reflexivity. Qed.

Lemma fold_addWithHeaders_sameButBodies (e1 e2 : string -> option loc -> Endpoint) methods :
  (forall m hdr, eraseBody (e1 m hdr) = eraseBody (e2 m hdr)) ->
  forall st1 st2, sameButBodies st1 st2 ->
  sameButBodies (fold_left (fun st m => addWithHeaders (e1 m) st) methods st1)
                (fold_left (fun st m => addWithHeaders (e2 m) st) methods st2).
Proof.
  intros He. induction methods as [|m l IH]; intros st1 st2 HR; [exact HR|].
  cbn [fold_left]. apply IH, addWithHeaders_sameButBodies; [apply He|exact HR].
Qed.

(** The visitor of the second pass does the same with any two tables of
    function bodies, up to the body texts. *)
Lemma ScanDir_visit_sameButBodies bodies1 bodies2 file n st1 st2 :
  sameButBodies st1 st2 ->
  (ScanDir_visit bodies1 file n st1).1 = (ScanDir_visit bodies2 file n st2).1
  /\ sameButBodies (ScanDir_visit bodies1 file n st1).2 (ScanDir_visit bodies2 file n st2).2.
Proof.
  intros HR. unfold ScanDir_visit.
  destruct n as [| | | fn args | | | | | | | | | | | | |]; try (split; [reflexivity|exact HR]).
  destruct fn as [| |x sel| | | | | | | | | | | | | |]; try (split; [reflexivity|exact HR]).
  cbn [fst snd]. split; [reflexivity|].
  assert (H1 : sameButBodies (methodsBranch file x sel args st1) (methodsBranch file x sel args st2)).
  { unfold methodsBranch. destruct (_ && _); [|exact HR].
    destruct x as [| | | f0 a0 | | | | | | | | | | | | |]; try exact HR.
    destruct f0 as [| |x0 s0| | | | | | | | | | | | | |]; try exact HR.
    destruct (_ || _); [|exact HR]. destruct (pathLiteral a0); [|exact HR].
    apply (fold_addWithHeaders_sameButBodies
             (fun m => restEndpoint m s file _ "") (fun m => restEndpoint m s file _ ""));
      [reflexivity|exact HR]. }
  set (n := ast.CallExpr (ast.SelectorExpr x sel) args).
  assert (H2 : sameButBodies (verbBranch bodies1 file n sel args (methodsBranch file x sel args st1))
                             (verbBranch bodies2 file n sel args (methodsBranch file x sel args st2))).
  { unfold verbBranch. destruct (isVerb sel); [|exact H1]. destruct (pathLiteral args); [|exact H1].
    apply addWithHeaders_sameButBodies; [reflexivity|exact H1]. }
  assert (H3 : sameButBodies (postBranch bodies1 file n sel args (verbBranch bodies1 file n sel args (methodsBranch file x sel args st1)))
                             (postBranch bodies2 file n sel args (verbBranch bodies2 file n sel args (methodsBranch file x sel args st2)))).
  { unfold postBranch. destruct (String.eqb sel "POST"); [|exact H2].
    destruct (pathLiteral args); [|exact H2].
    destruct (_ || _); apply addWithHeaders_sameButBodies; try reflexivity; exact H2. }
  assert (H4 : forall name s1 s2, sameButBodies s1 s2 ->
             sameButBodies (handleFuncBranch name bodies1 file n sel args s1)
                           (handleFuncBranch name bodies2 file n sel args s2)).
  { intros name s1 s2 Hs. unfold handleFuncBranch. destruct (String.eqb sel name); [|exact Hs].
    destruct (pathLiteral args); [|exact Hs]. unfold handleBranch.
    destruct (Nat.eqb _ 0).
    - apply addWithHeaders_sameButBodies; [reflexivity|exact Hs].
    - apply (fold_addWithHeaders_sameButBodies
               (fun m => restEndpoint m s file _ _) (fun m => restEndpoint m s file _ _));
        [reflexivity|exact Hs]. }
  apply H4, H4, H3.
Qed.

Lemma scanFile_sameButBodies bodies1 bodies2 path file st1 st2 :
  sameButBodies st1 st2 ->
  sameButBodies (scanFile bodies1 path file st1) (scanFile bodies2 path file st2).
Proof.
  intros (Hh & Hs & Hl). unfold scanFile. rewrite <- Hh.
  destruct (scanAnnotationsFromFile file path (heap st1)) as [h anns].
  apply InspectList_rel; [intros n s1 s2; apply ScanDir_visit_sameButBodies|].
  assert (H0 : sameButBodies (mkState h (seen st1) (endpoints st1))
                             (mkState h (seen st2) (endpoints st2))).
  { split; [|split]; cbn [heap seen endpoints]; [reflexivity|assumption|assumption]. }
  revert H0. generalize (mkState h (seen st1) (endpoints st1)) as s1.
  generalize (mkState h (seen st2) (endpoints st2)) as s2.
  induction anns as [|a anns IH]; intros s2 s1 H0; [exact H0|].
  cbn [fold_left]. apply IH, add_sameButBodies; [reflexivity|exact H0].
Qed.

Section Orders.
Variables range1 range2 : forall V : Type, entries V -> entries V.

(** X3: whatever the iteration orders of the maps and the analyses at hand,
    two calls on the same tree end with the same error and the same heap,
    and return the same endpoints, in the same order, up to their body
    texts. *)
Theorem ScanDir_sameButBodies root tree g1 g2 :
  let r1 := ScanDir range1 root tree g1 in
  let r2 := ScanDir range2 root tree g2 in
  resultErr r1 = resultErr r2 /\ resultHeap r1 = resultHeap r2
  /\ map eraseBody (result r1) = map eraseBody (result r2).
Proof.
  destruct (decide (Forall (fun pf : string * option File => is_Some pf.2)
                           (sourceFiles skipsDir root tree))) as [Hp|Hp].
  - rewrite (ScanDir_parsed range1 root tree g1 Hp), (ScanDir_parsed range2 root tree g2 Hp).
    cbn [resultErr resultHeap result].
    set (b1 := bodiesOf range1 _ _). set (b2 := bodiesOf range2 _ _).
    assert (H : forall files s1 s2, sameButBodies s1 s2 ->
      sameButBodies
        (fold_left (fun st (pf : string * File) => scanFile b1 pf.1 pf.2 st) files s1)
        (fold_left (fun st (pf : string * File) => scanFile b2 pf.1 pf.2 st) files s2)).
    { induction files as [|pf files IH]; intros s1 s2 Hs; [exact Hs|].
      cbn [fold_left]. apply IH, scanFile_sameButBodies, Hs. }
    destruct (H (parsedFiles (sourceFiles skipsDir root tree)) _ _
                (sameButBodies_refl (mkState [] ∅ []))) as (Hh & _ & Hl).
    split; [reflexivity|]. split; assumption.
  - destruct (ScanDir_failure range1 root tree g1 Hp) as (p1 & F1 & H1).
    destruct (ScanDir_failure range2 root tree g2 Hp) as (p2 & F2 & H2).
    rewrite H1, H2. rewrite F1 in F2. injection F2 as <-. repeat split.
Qed.

(** X2: a second call after a first one, with the same iteration order,
    returns what the first returned, whatever globalProjectAnalysis was
    before the first. *)
Theorem ScanDir_again root tree g :
  ScanDir range1 root tree (globalProjectAnalysis (ScanDir range1 root tree g))
  = ScanDir range1 root tree g.
Proof.
  assert (Hg : globalProjectAnalysis (ScanDir range1 root tree g)
               = analysisOf range1 root tree g).
  { unfold ScanDir. fold (analysisOf range1 root tree g).
    destruct (filepath.WalkDir _ root tree ∅) as [b []]; try reflexivity.
    destruct (filepath.WalkDir _ root tree (mkState [] ∅ [])). reflexivity. }
  rewrite Hg. unfold ScanDir, analysisOf.
  destruct (AnalyzeProject range1 root tree); reflexivity.
Qed.
End Orders.

(** * Further properties of the code *)

(** ** The result of a whole scan *)

(** The first file of a walk, in its order, that does not parse. *)
Definition firstUnparsed (files : list (string * option File)) : option string :=
  first_match (fun pf : string * option File =>
                 match pf.2 with None => Some pf.1 | Some _ => None end) files.



Section WholeScan.
Variable range : forall V : Type, entries V -> entries V.


(** X4: when the name of the root directory begins with a dot, as that of
    the directory [.] does, both walks stop at the root: ScanDir returns no
    endpoint and no error, whatever the tree holds, and leaves the analysis
    of an empty project behind. *)
Theorem ScanDir_dot_root root name entries g :
  strings.HasPrefix name "." = true ->
  ScanDir range root (filepath.Directory name entries) g
  = mkResult [] [] filepath.Nil
      (Some (ProjectAnalysis.mk [] [] (detectArchitecturePattern range emptyAnalysis))).
Proof.
  intros H. unfold ScanDir, AnalyzeProject, filepath.WalkDir.
  cbn [filepath.walkDir AnalyzeProject_walk ScanDir_walk1 ScanDir_walk2].
  unfold shouldSkipDir, skipsDir. rewrite H, orb_true_r. reflexivity.
Qed.
End WholeScan.

Lemma ScanDir_dot_root_witness :
  ScanDir in_order "." (filepath.Directory "." [filepath.RegularFile "main.go" (Some chainFile)])
          None
  = mkResult [] [] filepath.Nil
      (Some (ProjectAnalysis.mk [] [] (detectArchitecturePattern in_order emptyAnalysis))).
Proof.
  apply (ScanDir_dot_root in_order "." "."
           [filepath.RegularFile "main.go" (Some chainFile)] None).
  reflexivity.
Defined.

(** ** ScanDirWithOpts *)

Module ScanOptions.
Record t : Type := mk { Dir : string; UseTypes : bool; BuildTags : string }.
End ScanOptions.

(** nilOr normalizes error to nil *)
Definition nilOr (err : filepath.error) : filepath.error :=
  match err with
  | filepath.Nil => err
  | _ => filepath.Nil
  end.

Section WithOpts.
Variable range : forall V : Type, entries V -> entries V.

(** [tree] is the directory at [opt.Dir]. *)
Definition ScanDirWithOpts (opt : ScanOptions.t) (tree : filepath.DirEntry)
    (g : option ProjectAnalysis.t) : ScanResult :=
  if negb (ScanOptions.UseTypes opt) then
    let r := ScanDir range (ScanOptions.Dir opt) tree g in
    mkResult (result r) (resultHeap r) (nilOr (resultErr r)) (globalProjectAnalysis r)
  else
    let r := ScanDir range (ScanOptions.Dir opt) tree g in
    mkResult (result r) (resultHeap r) (nilOr (resultErr r)) (globalProjectAnalysis r).

(** X7: ScanDirWithOpts never returns an error, whatever the options and
    the tree: it returns the endpoints of ScanDir on the directory and a
    nil error, also when ScanDir fails on a file that does not parse. *)
Theorem ScanDirWithOpts_no_error opt tree g :
  resultErr (ScanDirWithOpts opt tree g) = filepath.Nil
  /\ result (ScanDirWithOpts opt tree g)
     = result (ScanDir range (ScanOptions.Dir opt) tree g).
Proof.
  assert (Hn : forall e, nilOr e = filepath.Nil) by (intros []; reflexivity).
  unfold ScanDirWithOpts.
  destruct (negb (ScanOptions.UseTypes opt)); cbn [resultErr result];
    (split; [apply Hn|reflexivity]).
Qed.
End WithOpts.

(** ** The architecture pattern *)

(** X5: the type detectArchitecturePattern assigns is always one of the four
    patterns; the initial value "unknown" is never returned. *)
Theorem detectArchitecturePattern_Type range (analysis : ProjectAnalysis.t) :
  ArchitecturePattern.Type_ (detectArchitecturePattern range analysis)
    ∈ ["clean"; "mvc"; "layered"; "microservice"].
Proof.
  unfold detectArchitecturePattern.
  repeat match goal with
         | |- context [PrimFloat.ltb ?a ?b] => destruct (PrimFloat.ltb a b)
         end; cbn; set_solver.
Qed.

(** ** De-duplication *)

(** The defaults [add] gives to an endpoint before it computes its key. *)
Definition withDefaults (e : Endpoint) : Endpoint :=
  let e := if String.eqb (Method e) "" then setMethod "ANY" e else e in
  let e := if negb (strings.HasPrefix (Path e) "/") then setPath ("/" +:+ Path e) e else e in
  if String.eqb (Type_ e) "" then setType_ "REST" e else e.

Lemma add_withDefaults e st :
  add e st
  = let e' := withDefaults e in
    let key := endpointKey (heap st) e' in
    if bool_decide (key ∈ seen st) then st
    else mkState (heap st) ({[ key ]} ∪ seen st)
                 (endpoints st ++ [setMethod (strings.ToUpper (Method e')) e']).
Proof. reflexivity. Qed.

(** X6: the first endpoint seen under a key wins.  After [add e1], adding an
    endpoint [e2] that has, once the defaults are filled in, the same key
    (upper-cased method, path, source file, tags) changes nothing, whatever
    the other fields of [e2] are. *)
Theorem add_first_seen_wins e1 e2 st :
  endpointKey (heap st) (withDefaults e2) = endpointKey (heap st) (withDefaults e1) ->
  add e2 (add e1 st) = add e1 st.
Proof.
  intros Hk. rewrite (add_withDefaults e1). cbn zeta.
  destruct (bool_decide (endpointKey (heap st) (withDefaults e1) ∈ seen st)) eqn:E1.
  - rewrite add_withDefaults. cbn zeta. rewrite Hk, E1. reflexivity.
  - rewrite add_withDefaults. cbn zeta. cbn [heap seen]. rewrite Hk.
    rewrite bool_decide_true by set_solver. reflexivity.
Qed.

Lemma add_first_seen_wins_witness :
  let e1 := restEndpoint "GET" "/users" "main.go" "list" "" None in
  let e2 := mkEndpoint "get" "users" "main.go" "other" "again" None "{}" None "" None in
  add e2 (add e1 (mkState [] ∅ [])) = add e1 (mkState [] ∅ []).
Proof.
  intros e1 e2. apply (add_first_seen_wins e1 e2 (mkState [] ∅ [])). reflexivity.
Defined.

(** ** Function bodies *)

Lemma generateBodyByVariableName_nonempty varName :
  generateBodyByVariableName varName <> "".
Proof.
  unfold generateBodyByVariableName.
  repeat match goal with
         | |- context [if ?b then _ else _] => destruct b
         end; intros H; cbv in H; discriminate H.
Qed.

Lemma generateBodyFromArgs_nonempty call : generateBodyFromArgs call <> "".
Proof.
  unfold generateBodyFromArgs.
  destruct call; try (intros H; cbv in H; discriminate H).
  destruct (unaryIdent _); [apply generateBodyByVariableName_nonempty|].
  destruct (unaryIdent _); [apply generateBodyByVariableName_nonempty|].
  intros H; cbv in H; discriminate H.
Qed.

Section Bodies.
Variable range : forall V : Type, entries V -> entries V.

(** A body example is never the empty string. *)
Lemma generateSmartBodyExample_nonempty g call structInfo :
  generateSmartBodyExample range g call structInfo <> "".
Proof.
  unfold generateSmartBodyExample.
  destruct (String.eqb_spec
              match g with
              | Some analysis => generateBodyFromProjectAnalysis range call analysis
              | None => ""
              end "") as [->|Hne]; cbn [negb]; [|exact Hne].
  destruct structInfo as [info|]; [|apply generateBodyFromArgs_nonempty].
  destruct (0 <? List.length (StructInfo.Fields info)) eqn:E;
    [|apply generateBodyFromArgs_nonempty].
  unfold generateJSONFromStruct.
  destruct (List.length (StructInfo.Fields info)); [discriminate E|].
  cbn. discriminate.
Qed.

(** The functions of a declaration list for which a body is recorded under
    the name [name]. *)
Definition hasBodyIdiom (name : string) (decl : Node) : bool :=
  match decl with
  | FuncDecl n (Some body) =>
      String.eqb n name && negb (Nat.eqb (List.length (bodyIdiomCalls body)) 0)
  | _ => false
  end.

Lemma DetectBodyFromFunction_hits g n body :
  DetectBodyFromFunction range g (FuncDecl n (Some body))
  = match last (bodyIdiomCalls body) with
    | Some call => generateSmartBodyExample range g call (scanStructUsage body)
    | None => ""
    end.
Proof.
  unfold DetectBodyFromFunction. rewrite DetectJSONBody_hits.
  destruct (last (bodyIdiomCalls body)); reflexivity.
Qed.

Lemma last_cons_is_Some {A : Type} (x : A) (l : list A) : is_Some (last (x :: l)).
Proof.
  revert x. induction l as [|y l IH]; intros x; [eexists; reflexivity|].
  rewrite last_cons_cons. apply IH.
Qed.

(** One declaration of the loop of scanFunctionsForBodies. *)
Lemma scanFunctionsForBodies_step g (m : gmap string string) decl k :
  is_Some (match decl with
           | FuncDecl funcName _ =>
               let detectedBody := DetectBodyFromFunction range g decl in
               if negb (String.eqb detectedBody "")
               then <[funcName := detectedBody]> m
               else m
           | _ => m
           end !! k)
  <-> is_Some (m !! k) \/ hasBodyIdiom k decl = true.
Proof.
  assert (Hsame : is_Some (m !! k) <-> is_Some (m !! k) \/ false = true)
    by (split; [left; assumption|intros [H|H]; [exact H|discriminate H]]).
  destruct decl as [| | | | | | | | | | | | | | |fname [body|]|]; try exact Hsame.
  - rewrite DetectBodyFromFunction_hits. cbn [hasBodyIdiom].
    destruct (bodyIdiomCalls body) as [|c l] eqn:Eb.
    + cbn. rewrite andb_false_r. exact Hsame.
    + destruct (last_cons_is_Some c l) as [c' ->]. cbn [List.length Nat.eqb negb].
      rewrite andb_true_r. cbn zeta.
      destruct (String.eqb_spec
                  (generateSmartBodyExample range g c' (scanStructUsage body)) "")
        as [E|_]; [destruct (generateSmartBodyExample_nonempty _ _ _ E)|].
      cbn [negb]. destruct (String.eqb_spec fname k) as [->|Hne].
      * rewrite lookup_insert_eq. split; [right; reflexivity|intros _; eexists; reflexivity].
      * rewrite lookup_insert_ne by exact Hne. exact Hsame.
Qed.

(** X8: scanFunctionsForBodies records a body for a function name exactly
    when the file declares a function of that name whose body contains a
    call of a recognised body idiom (outside the arguments of another such
    call); a function without a body, or without such a call, leaves no
    entry. *)
Theorem scanFunctionsForBodies_recorded g file name :
  is_Some (scanFunctionsForBodies range g file !! name)
  <-> existsb (hasBodyIdiom name) (FileDecls file) = true.
Proof.
  unfold scanFunctionsForBodies.
  generalize (FileDecls file) as decls.
  assert (G : forall decls (m : gmap string string),
    is_Some (fold_left (fun (functionBodies : gmap string string) decl =>
               match decl with
               | FuncDecl funcName _ =>
                   let detectedBody := DetectBodyFromFunction range g decl in
                   if negb (String.eqb detectedBody "")
                   then <[funcName := detectedBody]> functionBodies
                   else functionBodies
               | _ => functionBodies
               end) decls m !! name)
    <-> is_Some (m !! name) \/ existsb (hasBodyIdiom name) decls = true).
  { induction decls as [|d decls IH]; intros m; cbn [fold_left existsb].
    - split; [left; assumption|intros [H|H]; [exact H|discriminate H]].
    - rewrite IH, scanFunctionsForBodies_step, orb_true_iff. tauto. }
  intros decls. rewrite G, lookup_empty.
  split; [intros [[x H]|H]; [discriminate H|exact H]|right; assumption].
Qed.
End Bodies.

(** ** The walk of the project analyser *)

Lemma walkDir_ext {S : Type} (fn1 fn2 : string -> filepath.DirEntry -> S -> S * filepath.error) :
  (forall path d s, fn1 path d s = fn2 path d s) ->
  forall d path s, filepath.walkDir fn1 path d s = filepath.walkDir fn2 path d s.
Proof.
  intros H. induction d as [name parsed|name entries IH] using DirEntry_tree_ind;
    intros path s; cbn [filepath.walkDir]; rewrite H; [reflexivity|].
  destruct (fn2 path (filepath.Directory name entries) s) as [s1 [| |m]]; try reflexivity.
  revert s1. induction IH as [|d1 l Hd1 _ IHl]; intros s1; [reflexivity|].
  rewrite Hd1. destruct (filepath.walkDir fn2 _ d1 s1) as [s2 [| |m]]; try reflexivity.
  apply IHl.
Qed.

(** analyzeFile on a file that parses. *)
Definition analyzeParsedFile (filePath : string) (file : File)
    (analysis : ProjectAnalysis.t) : ProjectAnalysis.t :=
  default analysis (analyzeFile filePath (Some file) analysis).

Lemma AnalyzeProject_walk_fileWalk path d analysis :
  AnalyzeProject_walk path d analysis
  = fileWalk shouldSkipDir "failed to parse " analyzeParsedFile path d analysis.
Proof.
  destruct d as [name parsed|name entries]; cbn [AnalyzeProject_walk fileWalk].
  - unfold isGoSource.
    destruct (strings.HasSuffix path ".go"), (strings.HasSuffix path "_test.go");
      cbn [negb orb andb]; try reflexivity.
    destruct parsed; reflexivity.
  - destruct (shouldSkipDir name); reflexivity.
Qed.

Section Analysis.
Variable range : forall V : Type, entries V -> entries V.

(** X9: AnalyzeProject fails exactly when a Go source file of the tree,
    outside the directories that shouldSkipDir names, does not parse. *)
Theorem AnalyzeProject_fails_iff root tree :
  AnalyzeProject range root tree = None
  <-> is_Some (firstUnparsed (sourceFiles shouldSkipDir root tree)).
Proof.
  unfold AnalyzeProject, filepath.WalkDir.
  rewrite (walkDir_ext _ _ AnalyzeProject_walk_fileWalk), walkDir_fileWalk.
  pose proof (runFiles_err "failed to parse " analyzeParsedFile
                (sourceFiles shouldSkipDir root tree) emptyAnalysis) as He.
  fold (firstUnparsed (sourceFiles shouldSkipDir root tree)) in He.
  destruct (runFiles _ _ _ emptyAnalysis) as [a e]. cbn [snd] in He. subst e.
  destruct (firstUnparsed _) as [path|].
  - split; [intros _; eexists; reflexivity|reflexivity].
  - split; [discriminate|intros [x H]; discriminate H].
Qed.

(** X10: when a file that the analyser reaches does not parse, ScanDir
    leaves globalProjectAnalysis as it found it, a stale analysis
    included.  The analyser reaches the directory [bin], which the scan
    skips: such a file there does not make the scan fail. *)
Theorem ScanDir_keeps_previous_analysis root tree g path :
  firstUnparsed (sourceFiles shouldSkipDir root tree) = Some path ->
  globalProjectAnalysis (ScanDir range root tree g) = g.
Proof.
  intros E.
  assert (Ha : AnalyzeProject range root tree = None)
    by (apply AnalyzeProject_fails_iff; rewrite E; eexists; reflexivity).
  unfold ScanDir. rewrite Ha.
  destruct (filepath.WalkDir (ScanDir_walk1 range g) root tree ∅) as [b []]; try reflexivity.
  destruct (filepath.WalkDir (ScanDir_walk2 b) root tree (mkState [] ∅ [])).
  reflexivity.
Qed.
End Analysis.

(** A project with a file that does not parse in [bin]. *)
Definition brokenBinTree : filepath.DirEntry :=
  filepath.Directory "app"
    [ filepath.Directory "bin" [filepath.RegularFile "gen.go" None];
      filepath.RegularFile "main.go" (Some chainFile) ].

Lemma ScanDir_keeps_previous_analysis_witness :
  globalProjectAnalysis (ScanDir in_order "app" brokenBinTree (Some plainProject))
  = Some plainProject
  /\ resultErr (ScanDir in_order "app" brokenBinTree (Some plainProject)) = filepath.Nil.
Proof.
  split.
  - apply (ScanDir_keeps_previous_analysis in_order "app" brokenBinTree (Some plainProject)
             "app/bin/gen.go").
    reflexivity.
  - vm_compute. reflexivity.
Defined.

(** ** Invariants of a scan *)

Section InspectInvariant.
Context {S : Type} (P : S -> Prop) (f : Node -> S -> bool * S).
Hypothesis visit_keeps : forall n s, P s -> P (f n s).2.

Lemma Inspect_inv n : forall s, P s -> P (Inspect f n s).
Proof.
  induction n as [n IH] using Node_children_ind. intros s Hs.
  rewrite Inspect_unfold. pose proof (visit_keeps n s Hs) as H1.
  destruct (f n s) as [d s1]. cbn [snd] in H1. destruct d; [|exact H1].
  revert s1 H1. induction IH as [|x l Hx _ IHl]; intros s1 H1; [exact H1|].
  rewrite InspectList_cons. apply IHl, Hx, H1.
Qed.

Lemma InspectList_inv l : forall s, P s -> P (InspectList f l s).
Proof.
  induction l as [|x l IHl]; intros s Hs; [exact Hs|].
  rewrite InspectList_cons. apply IHl, Inspect_inv, Hs.
Qed.
End InspectInvariant.

(** The methods and types of the endpoints that reach [add]. *)
Definition methodOK (m : string) : Prop := m = "ANY" \/ m ∈ verbSet.
Definition typeOK (t : string) : Prop := t = "REST" \/ t = "GraphQL".

Lemma verbSet_elements m :
  m ∈ verbSet ->
  m = "GET" \/ m = "POST" \/ m = "PUT" \/ m = "DELETE" \/ m = "PATCH" \/ m = "HEAD"
  \/ m = "OPTIONS".
Proof. unfold verbSet. rewrite !elem_of_union, !elem_of_singleton. tauto. Qed.

Lemma methodOK_upper m : methodOK m -> strings.ToUpper m = m /\ String.eqb m "" = false.
Proof.
  intros [->|H]; [split; reflexivity|].
  apply verbSet_elements in H.
  destruct H as [->|[->|[->|[->|[->|[->| ->]]]]]]; split; reflexivity.
Qed.

Lemma typeOK_nonempty t : typeOK t -> String.eqb t "" = false.
Proof. intros [->| ->]; reflexivity. Qed.

Lemma in_verbSet_methodOK m : in_verbSet m = true -> methodOK m.
Proof. intros H. right. exact (bool_decide_eq_true_1 _ H). Qed.

Lemma stringArgs_verbs args : Forall methodOK (stringArgs args).
Proof.
  unfold stringArgs. induction args as [|a args IH]; [constructor|].
  cbn [omap list_omap].
  destruct a as [|k v| | | | | | | | | | | | | | |]; try exact IH.
  destruct k; try exact IH.
  destruct (strconv.Unquote v) as [s|]; [|exact IH].
  destruct (in_verbSet (strings.ToUpper (strings.TrimSpace s))) eqn:E; [|exact IH].
  constructor; [apply in_verbSet_methodOK, E|exact IH].
Qed.

Lemma findChainedMethods_verbs n : Forall methodOK (findChainedMethods n).
Proof.
  unfold findChainedMethods.
  destruct n as [| | |fn args| | | | | | | | | | | | |]; try constructor.
  destruct fn as [| |x sel| | | | | | | | | | | | | |]; try constructor.
  destruct (String.eqb sel "Methods"); [apply stringArgs_verbs|].
  destruct x as [| | |fn2 iargs| | | | | | | | | | | | |]; try constructor.
  destruct fn2 as [| |x2 s2| | | | | | | | | | | | | |]; try constructor.
  destruct (String.eqb s2 "Methods"); [apply stringArgs_verbs|constructor].
Qed.

Lemma pathLiteral_Some args p : pathLiteral args = Some p -> isValidEndpointPath p = true.
Proof.
  unfold pathLiteral. destruct args as [|a args]; [discriminate|].
  destruct a as [|k v| | | | | | | | | | | | | | |]; try discriminate.
  destruct k; try discriminate.
  destruct (strconv.Unquote v) as [s|]; [|discriminate].
  destruct (isValidEndpointPath s) eqn:E; [|discriminate]. intros [= <-]. exact E.
Qed.

(** What the route-call recogniser passes to [add]: a method of the verb
    set or ANY, a type, a path that isValidEndpointPath accepts, no tag. *)
Definition callCandidate (f : option loc -> Endpoint) : Prop :=
  forall hdr,
    methodOK (Method (f hdr)) /\ typeOK (Type_ (f hdr))
    /\ isValidEndpointPath (Path (f hdr)) = true /\ Tags (f hdr) = None.

Lemma restEndpoint_candidate m p file handler body :
  methodOK m -> isValidEndpointPath p = true ->
  callCandidate (restEndpoint m p file handler body).
Proof. intros Hm Hp hdr. cbn. repeat split; [exact Hm|left; reflexivity|exact Hp]. Qed.

Section VisitInvariant.
Variable P : ScanState -> Prop.
Hypothesis add_keeps : forall f st, callCandidate f -> P st -> P (addWithHeaders f st).

Lemma fold_addWithHeaders_inv (e : string -> option loc -> Endpoint) methods :
  Forall (fun m => callCandidate (e m)) methods ->
  forall st, P st -> P (fold_left (fun st m => addWithHeaders (e m) st) methods st).
Proof.
  induction 1 as [|m methods Hm _ IH]; intros st Hs; [exact Hs|].
  cbn [fold_left]. apply IH, add_keeps; assumption.
Qed.

Lemma handleBranch_inv bodies file n p st :
  isValidEndpointPath p = true -> P st -> P (handleBranch bodies file n p st).
Proof.
  intros Hp Hs. unfold handleBranch.
  destruct (List.length (findChainedMethods n) =? 0).
  - apply add_keeps; [|exact Hs]. apply restEndpoint_candidate; [left; reflexivity|exact Hp].
  - apply (fold_addWithHeaders_inv
             (fun m => restEndpoint m p file (guessHandlerName n)
                (if (String.eqb m "POST" || String.eqb m "PUT" || String.eqb m "PATCH")
                    && negb (String.eqb (bodyOf bodies (guessHandlerName n)) "")
                 then bodyOf bodies (guessHandlerName n) else ""))); [|exact Hs].
    eapply Forall_impl; [apply findChainedMethods_verbs|].
    intros m Hm. cbv beta. apply restEndpoint_candidate; assumption.
Qed.

Lemma methodsBranch_inv file x sel args st :
  P st -> P (methodsBranch file x sel args st).
Proof.
  intros Hs. unfold methodsBranch.
  destruct (String.eqb sel "Methods" && (1 <=? List.length args)); [|exact Hs].
  destruct x as [| | |fn iargs| | | | | | | | | | | | |]; try exact Hs.
  destruct fn as [| |x2 isel| | | | | | | | | | | | | |]; try exact Hs.
  destruct (String.eqb isel "HandleFunc" || String.eqb isel "Handle"); [|exact Hs].
  destruct (pathLiteral iargs) as [p|] eqn:Ep; [|exact Hs].
  apply (fold_addWithHeaders_inv
           (fun m => restEndpoint m p file
              (guessHandlerName (CallExpr (SelectorExpr x2 isel) iargs)) "")); [|exact Hs].
  eapply Forall_impl; [apply stringArgs_verbs|].
  intros m Hm. cbv beta. apply restEndpoint_candidate; [exact Hm|].
  apply (pathLiteral_Some _ _ Ep).
Qed.

Lemma verbBranch_inv bodies file n sel args st :
  P st -> P (verbBranch bodies file n sel args st).
Proof.
  intros Hs. unfold verbBranch. destruct (isVerb sel) eqn:Ev; [|exact Hs].
  destruct (pathLiteral args) as [p|] eqn:Ep; [|exact Hs].
  apply add_keeps; [|exact Hs]. apply restEndpoint_candidate.
  - apply in_verbSet_methodOK, Ev.
  - apply (pathLiteral_Some _ _ Ep).
Qed.

Lemma postBranch_inv bodies file n sel args st :
  P st -> P (postBranch bodies file n sel args st).
Proof.
  intros Hs. unfold postBranch. destruct (String.eqb sel "POST"); [|exact Hs].
  destruct (pathLiteral args) as [p|] eqn:Ep; [|exact Hs].
  assert (Hpost : methodOK "POST") by (apply in_verbSet_methodOK; reflexivity).
  destruct (_ || _).
  - apply add_keeps; [|exact Hs]. intros hdr. cbn.
    repeat split; [exact Hpost|right; reflexivity|apply (pathLiteral_Some _ _ Ep)].
  - apply add_keeps; [|exact Hs]. apply restEndpoint_candidate; [exact Hpost|].
    apply (pathLiteral_Some _ _ Ep).
Qed.

Lemma handleFuncBranch_inv name bodies file n sel args st :
  P st -> P (handleFuncBranch name bodies file n sel args st).
Proof.
  intros Hs. unfold handleFuncBranch. destruct (String.eqb sel name); [|exact Hs].
  destruct (pathLiteral args) as [p|] eqn:Ep; [|exact Hs].
  apply handleBranch_inv; [apply (pathLiteral_Some _ _ Ep)|exact Hs].
Qed.

Lemma ScanDir_visit_inv bodies file n st :
  P st -> P (ScanDir_visit bodies file n st).2.
Proof.
  intros Hs. unfold ScanDir_visit.
  destruct n as [| | |fn args| | | | | | | | | | | | |]; try exact Hs.
  destruct fn as [| |x sel| | | | | | | | | | | | | |]; try exact Hs.
  cbn [snd].
  apply handleFuncBranch_inv, handleFuncBranch_inv, postBranch_inv, verbBranch_inv,
    methodsBranch_inv, Hs.
Qed.
End VisitInvariant.

(** *** The heap during a scan *)

(** The tag slice of an endpoint is in the heap. *)
Definition tagsValid (h : Heap) (e : Endpoint) : Prop :=
  match Tags e with Some t => t < List.length h | None => True end.

(** The heap [h'] has the objects of [h], with the same tag slices. *)
Definition sliceStable (h h' : Heap) : Prop :=
  List.length h <= List.length h'
  /\ forall l : loc, l < List.length h -> load_slice h' (Some l) = load_slice h (Some l).

Lemma sliceStable_refl h : sliceStable h h.
Proof. split; [lia|reflexivity]. Qed.

Lemma sliceStable_trans h1 h2 h3 :
  sliceStable h1 h2 -> sliceStable h2 h3 -> sliceStable h1 h3.
Proof.
  intros [L1 S1] [L2 S2]. split; [lia|]. intros l Hl. rewrite S2 by lia. apply S1, Hl.
Qed.

Lemma sliceStable_app h ext : sliceStable h (h ++ ext).
Proof.
  split; [rewrite length_app; lia|]. intros l Hl. apply load_slice_app, Hl.
Qed.

Lemma sliceStable_store l k v h : sliceStable h (store_map l k v h).
Proof.
  split; [rewrite store_map_length; lia|]. intros l' Hl'. unfold store_map, load_slice.
  destruct (h !! l) as [[m|ts]|] eqn:E; try reflexivity.
  destruct (decide (l = l')) as [->|Hne].
  - rewrite list_lookup_insert_eq by exact Hl'. rewrite E. reflexivity.
  - rewrite list_lookup_insert_ne by exact Hne. reflexivity.
Qed.

Lemma tagsValid_mono h h' e : List.length h <= List.length h' -> tagsValid h e -> tagsValid h' e.
Proof. unfold tagsValid. destruct (Tags e); [lia|trivial]. Qed.

Lemma endpointKey_stable h h' e :
  sliceStable h h' -> tagsValid h e -> endpointKey h' e = endpointKey h e.
Proof.
  intros [_ Hs] Ht. unfold endpointKey. unfold tagsValid in Ht.
  destruct (Tags e) as [t|] eqn:E; [|reflexivity]. rewrite (Hs t Ht). reflexivity.
Qed.

(** *** The endpoints of the annotations *)

(** What the annotation parser passes to [add]. *)
Definition candidate (h : Heap) (e : Endpoint) : Prop :=
  methodOK (Method e) /\ typeOK (Type_ e) /\ tagsValid h e.

Lemma candidate_mono h h' e :
  List.length h <= List.length h' -> candidate h e -> candidate h' e.
Proof. intros Hl (Hm & Ht & Hv). repeat split; try assumption. eapply tagsValid_mono; eassumption. Qed.

Lemma callCandidate_candidate f hdr h : callCandidate f -> candidate h (f hdr).
Proof.
  intros H. destruct (H hdr) as (Hm & Ht & _ & Hn). repeat split; try assumption.
  unfold tagsValid. rewrite Hn. exact I.
Qed.

Lemma routesOfLine_methods line :
  Forall (fun r => methodOK (route.method r)) (routesOfLine line).
Proof.
  unfold routesOfLine.
  assert (Hv : forall m, methodOK (if in_verbSet m then m else "ANY")).
  { intros m. destruct (in_verbSet m) eqn:E; [apply in_verbSet_methodOK, E|left; reflexivity]. }
  repeat apply Forall_app_2.
  - destruct (regexp.FindStringSubmatch graphqlRe line); [|constructor].
    constructor; [|constructor]. apply in_verbSet_methodOK. reflexivity.
  - destruct (regexp.FindStringSubmatch restRe line); [|constructor].
    constructor; [|constructor]. apply Hv.
  - destruct (regexp.FindStringSubmatch routeRe line); [|constructor].
    constructor; [|constructor]. apply Hv.
Qed.

Lemma endpointOfRoute_inv path a r h accG res :
  methodOK (route.method r) -> Forall (candidate h) res ->
  let '(h1, _, res1) := endpointOfRoute path a r (h, accG, res) in
  sliceStable h h1 /\ Forall (candidate h1) res1.
Proof.
  intros Hm Hres. unfold endpointOfRoute, copyTags, alloc.
  destruct (accTags a) as [|t ts];
    destruct (String.eqb (route.routeType r) "GraphQL");
    (split; [rewrite <- ?app_assoc; apply sliceStable_app|]);
    (apply Forall_app_2;
       [eapply Forall_impl; [exact Hres|]; intros e He;
        apply (candidate_mono h); [rewrite ?length_app; lia|exact He]
       |apply List.Forall_cons; [|apply List.Forall_nil]]);
    (split; [exact Hm|split; [first [left; reflexivity|right; reflexivity]|]]);
    unfold tagsValid; cbn [Tags]; rewrite ?length_app; cbn [List.length]; try lia; exact I.
Qed.

Lemma routes_inv path a routes :
  Forall (fun r => methodOK (route.method r)) routes ->
  forall h accG res, Forall (candidate h) res ->
  let '(h1, _, res1) :=
    fold_left (fun s r => endpointOfRoute path a r s) routes (h, accG, res) in
  sliceStable h h1 /\ Forall (candidate h1) res1.
Proof.
  induction 1 as [|r routes Hr _ IH]; intros h accG res Hres.
  - cbn. split; [apply sliceStable_refl|exact Hres].
  - cbn [fold_left]. pose proof (endpointOfRoute_inv path a r h accG res Hr Hres) as H1.
    destruct (endpointOfRoute path a r (h, accG, res)) as [[h1 accG1] res1].
    destruct H1 as [S1 C1]. specialize (IH h1 accG1 res1 C1).
    destruct (fold_left _ routes (h1, accG1, res1)) as [[h2 accG2] res2].
    destruct IH as [S2 C2]. split; [eapply sliceStable_trans; eassumption|exact C2].
Qed.

Lemma collectLine_sliceStable line h a : sliceStable h (collectLine line (h, a)).1.
Proof.
  unfold collectLine.
  repeat match goal with
         | |- context [match regexp.FindStringSubmatch ?r ?l with _ => _ end] =>
             destruct (regexp.FindStringSubmatch r l)
         | |- context [if ?b then _ else _] => destruct b
         end; cbn [fst]; first [apply sliceStable_store|apply sliceStable_refl].
Qed.

Lemma collectLines_sliceStable lines : forall s,
  sliceStable s.1 (fold_left (fun s line => collectLine line s) lines s).1.
Proof.
  induction lines as [|line lines IH]; intros [h a]; [apply sliceStable_refl|].
  cbn [fold_left]. eapply sliceStable_trans; [|apply IH].
  apply collectLine_sliceStable.
Qed.

Lemma scanGroup_inv path text h res :
  Forall (candidate h) res ->
  let '(h1, res1) := scanGroup path text (h, res) in
  sliceStable h h1 /\ Forall (candidate h1) res1.
Proof.
  intros Hres. unfold scanGroup, alloc.
  pose proof (collectLines_sliceStable (annotationLines text)
                (h ++ [MapObj ∅], mkAcc (List.length h) "" [] None)) as Hc.
  destruct (fold_left _ (annotationLines text) _) as [h1 a]. cbn [fst] in Hc.
  assert (S1 : sliceStable h h1)
    by (eapply sliceStable_trans; [apply sliceStable_app|exact Hc]).
  pose proof (routes_inv path a (concat (map routesOfLine (annotationLines text)))) as Hr.
  specialize (Hr (proj2 (Forall_concat _ _)
                    (proj2 (Forall_fmap _ _ _)
                       (proj2 (Forall_forall _ _) (fun line _ => routesOfLine_methods line))))).
  specialize (Hr h1 (accGraphQL a) res).
  destruct (fold_left _ (concat _) _) as [[h2 accG2] res2].
  destruct Hr as [S2 C2].
  - eapply Forall_impl; [exact Hres|]. intros e. apply candidate_mono, S1.
  - split; [eapply sliceStable_trans; eassumption|exact C2].
Qed.

Lemma scanAnnotationsFromFile_inv file path h :
  let '(h1, anns) := scanAnnotationsFromFile file path h in
  sliceStable h h1 /\ Forall (candidate h1) anns.
Proof.
  unfold scanAnnotationsFromFile.
  assert (G : forall groups h0 res, Forall (candidate h0) res ->
    let '(h1, res1) := fold_left (fun s text => scanGroup path text s) groups (h0, res) in
    sliceStable h0 h1 /\ Forall (candidate h1) res1).
  { induction groups as [|text groups IH]; intros h0 res Hres.
    - cbn. split; [apply sliceStable_refl|exact Hres].
    - cbn [fold_left]. pose proof (scanGroup_inv path text h0 res Hres) as H1.
      destruct (scanGroup path text (h0, res)) as [h1 res1]. destruct H1 as [S1 C1].
      specialize (IH h1 res1 C1).
      destruct (fold_left _ groups (h1, res1)) as [h2 res2]. destruct IH as [S2 C2].
      split; [eapply sliceStable_trans; eassumption|exact C2]. }
  apply G. constructor.
Qed.

(** *** From [add] to ScanDir *)

Section ScanInvariant.
Variable P : ScanState -> Prop.
Hypothesis heap_keeps : forall st h',
  P st -> sliceStable (heap st) h' -> P (mkState h' (seen st) (endpoints st)).
Hypothesis add_keeps : forall e st, candidate (heap st) e -> P st -> P (add e st).

Lemma addWithHeaders_inv f st : callCandidate f -> P st -> P (addWithHeaders f st).
Proof.
  intros Hf Hs. unfold addWithHeaders, alloc. apply add_keeps.
  - apply callCandidate_candidate, Hf.
  - apply (heap_keeps st), sliceStable_app. exact Hs.
Qed.

Lemma scanFile_inv bodies path file st : P st -> P (scanFile bodies path file st).
Proof.
  intros Hs. unfold scanFile.
  pose proof (scanAnnotationsFromFile_inv file path (heap st)) as Ha.
  destruct (scanAnnotationsFromFile file path (heap st)) as [h anns].
  destruct Ha as [S1 C1].
  apply InspectList_inv; [intros n s; apply ScanDir_visit_inv, addWithHeaders_inv|].
  assert (G : forall anns s, Forall (candidate (heap s)) anns -> P s ->
            P (fold_left (fun st a => add a st) anns s)).
  { intros anns0. induction anns0 as [|a anns0 IH]; intros s Hc Hp; [exact Hp|].
    cbn [fold_left]. inversion Hc as [|? ? Hca Hrest]; subst.
    apply IH; [|apply add_keeps; assumption].
    assert (Hh : heap (add a s) = heap s).
    { unfold add. destruct (bool_decide _); reflexivity. }
    rewrite Hh. exact Hrest. }
  apply G; [exact C1|]. apply (heap_keeps st); assumption.
Qed.

Lemma ScanDir_inv range root tree g :
  P (mkState [] ∅ []) ->
  exists st, P st /\ result (ScanDir range root tree g) = endpoints st
             /\ resultHeap (ScanDir range root tree g) = heap st.
Proof.
  intros H0.
  destruct (decide (Forall (fun pf : string * option File => is_Some pf.2)
                           (sourceFiles skipsDir root tree))) as [Hp|Hp].
  - rewrite (ScanDir_parsed range root tree g Hp). cbn [result resultHeap].
    eexists. split; [|split; reflexivity].
    generalize (parsedFiles (sourceFiles skipsDir root tree)) at 2 as files.
    generalize (bodiesOf range (analysisOf range root tree g)
                  (parsedFiles (sourceFiles skipsDir root tree))) as bodies.
    intros bodies files. revert H0. generalize (mkState [] ∅ []) as s.
    induction files as [|pf files IH]; intros s Hs; [exact Hs|].
    cbn [fold_left]. apply IH, scanFile_inv, Hs.
  - destruct (ScanDir_failure range root tree g Hp) as (path & _ & ->).
    exists (mkState [] ∅ []). split; [exact H0|split; reflexivity].
Qed.
End ScanInvariant.

(** ** What every endpoint of a scan satisfies *)

Definition wellFormed (e : Endpoint) : Prop :=
  strings.HasPrefix (Path e) "/" = true /\ methodOK (Method e) /\ typeOK (Type_ e).

Lemma withDefaults_candidate e :
  methodOK (Method e) -> typeOK (Type_ e) ->
  withDefaults e
  = if negb (strings.HasPrefix (Path e) "/") then setPath ("/" +:+ Path e) e else e.
Proof.
  intros Hm Ht. unfold withDefaults. destruct (methodOK_upper _ Hm) as [_ ->].
  destruct (strings.HasPrefix (Path e) "/"); cbn [negb setPath Type_];
    rewrite (typeOK_nonempty _ Ht); reflexivity.
Qed.

Lemma setMethod_same e : setMethod (Method e) e = e.
Proof. destruct e; reflexivity. Qed.

(** What [add] appends for a candidate: the endpoint with its path
    completed. *)
Lemma add_candidate e st :
  methodOK (Method e) -> typeOK (Type_ e) ->
  let e' := if negb (strings.HasPrefix (Path e) "/") then setPath ("/" +:+ Path e) e else e in
  add e st
  = if bool_decide (endpointKey (heap st) e' ∈ seen st) then st
    else mkState (heap st) ({[ endpointKey (heap st) e' ]} ∪ seen st) (endpoints st ++ [e']).
Proof.
  intros Hm Ht e'. rewrite add_withDefaults. cbn zeta.
  rewrite (withDefaults_candidate e Hm Ht). fold e'.
  assert (He : Method e' = Method e) by (unfold e'; destruct (negb _); reflexivity).
  rewrite He. destruct (methodOK_upper _ Hm) as [-> _]. rewrite <- He, setMethod_same.
  reflexivity.
Qed.

Lemma HasPrefix_slash p : strings.HasPrefix ("/" +:+ p) "/" = true.
Proof. destruct p; reflexivity. Qed.

Lemma add_wellFormed e st :
  methodOK (Method e) -> typeOK (Type_ e) ->
  Forall wellFormed (endpoints st) -> Forall wellFormed (endpoints (add e st)).
Proof.
  intros Hm Ht Hs. rewrite (add_candidate e st Hm Ht). cbn zeta.
  destruct (bool_decide _); [exact Hs|]. cbn [endpoints].
  apply Forall_app_2; [exact Hs|]. apply List.Forall_cons; [|apply List.Forall_nil].
  destruct (strings.HasPrefix (Path e) "/") eqn:Ep; cbn [negb].
  - repeat split; assumption.
  - split; [apply HasPrefix_slash|split; assumption].
Qed.

(** X11: every endpoint ScanDir returns, from an annotation or from a
    call, has a path that begins with a slash, a method that is ANY or one
    of the seven verbs of verbSet, in upper case, and the type REST or
    GraphQL. *)
Theorem ScanDir_wellFormed range root tree g :
  Forall wellFormed (result (ScanDir range root tree g)).
Proof.
  destruct (ScanDir_inv (fun st => Forall wellFormed (endpoints st))) with
    (range := range) (root := root) (tree := tree) (g := g) as (st & Hst & -> & _).
  - intros st h' H _. exact H.
  - intros e st (Hm & Ht & _) H. apply add_wellFormed; assumption.
  - constructor.
  - exact Hst.
Qed.

(** ** The keys of the endpoints of a scan *)

(** The keys of the endpoints are distinct and remembered, and the tag
    slices are in the heap. *)
Definition keysDistinct (st : ScanState) : Prop :=
  NoDup (map (endpointKey (heap st)) (endpoints st))
  /\ Forall (fun e => endpointKey (heap st) e ∈ seen st) (endpoints st)
  /\ Forall (tagsValid (heap st)) (endpoints st).

Lemma keysDistinct_heap st h' :
  keysDistinct st -> sliceStable (heap st) h' ->
  keysDistinct (mkState h' (seen st) (endpoints st)).
Proof.
  intros (Hn & Hk & Hv) Hs. unfold keysDistinct. cbn [heap seen endpoints].
  assert (Hsame : map (endpointKey h') (endpoints st)
                  = map (endpointKey (heap st)) (endpoints st)).
  { apply map_ext_Forall. eapply Forall_impl; [exact Hv|].
    intros e He. apply endpointKey_stable; assumption. }
  split; [rewrite Hsame; exact Hn|]. split.
  - rewrite Forall_forall in Hk, Hv. apply Forall_forall. intros e He.
    rewrite (endpointKey_stable _ _ _ Hs (Hv e He)). apply Hk, He.
  - eapply Forall_impl; [exact Hv|]. intros e. apply tagsValid_mono, Hs.
Qed.

Lemma keysDistinct_add e st :
  candidate (heap st) e -> keysDistinct st -> keysDistinct (add e st).
Proof.
  intros (Hm & Ht & Hv) (Hn & Hk & Hvs). rewrite (add_candidate e st Hm Ht). cbn zeta.
  set (e' := if negb (strings.HasPrefix (Path e) "/") then setPath ("/" +:+ Path e) e else e).
  destruct (bool_decide (endpointKey (heap st) e' ∈ seen st)) eqn:E;
    [repeat split; assumption|].
  apply bool_decide_eq_false_1 in E.
  unfold keysDistinct. cbn [heap seen endpoints]. split; [|split].
  - rewrite map_app. cbn [map]. apply NoDup_app. split; [exact Hn|]. split.
    + intros k Hin Hin'. apply list_elem_of_singleton in Hin'. subst k.
      apply list_elem_of_fmap in Hin as (e0 & Heq & He0).
      rewrite Forall_forall in Hk. apply E. rewrite Heq. apply Hk, He0.
    + apply NoDup_singleton.
  - apply Forall_app_2.
    + eapply Forall_impl; [exact Hk|]. intros e0 H0. cbv beta. set_solver.
    + apply List.Forall_cons; [set_solver|apply List.Forall_nil].
  - apply Forall_app_2; [exact Hvs|]. apply List.Forall_cons; [|apply List.Forall_nil].
    unfold e'. destruct (negb _); exact Hv.
Qed.

(** X12: the endpoints ScanDir returns have pairwise distinct keys (method,
    path, source file and tags joined by commas): the de-duplication leaves
    no two endpoints with the same key, although the tag slices are read
    from a heap that grows during the scan. *)
Theorem ScanDir_keys_distinct range root tree g :
  NoDup (map (endpointKey (resultHeap (ScanDir range root tree g)))
             (result (ScanDir range root tree g))).
Proof.
  destruct (ScanDir_inv keysDistinct keysDistinct_heap keysDistinct_add range root tree g)
    as (st & (Hn & _) & -> & ->); [|exact Hn].
  repeat split; constructor.
Qed.

(** ** The paths of the route calls *)

(** X13: the endpoints that the route-call recogniser adds for the
    declarations of a file all have a path that isValidEndpointPath
    accepts. *)
Theorem calls_have_valid_paths bodies file decls st :
  Forall (fun e => e ∈ endpoints st \/ isValidEndpointPath (Path e) = true)
         (endpoints (InspectList (ScanDir_visit bodies file) decls st)).
Proof.
  set (Q := fun s => Forall (fun e => e ∈ endpoints st \/ isValidEndpointPath (Path e) = true)
                            (endpoints s)).
  apply (InspectList_inv Q).
  - apply (ScanDir_visit_inv Q). intros f s Hf Hs. unfold Q in *.
    unfold addWithHeaders, alloc.
    destruct (Hf (Some (List.length (heap s)))) as (Hm & Ht & Hp & _).
    rewrite (add_candidate _ _ Hm Ht). cbn zeta.
    rewrite (isValidEndpointPath_prefix _ Hp). cbn [negb heap seen endpoints].
    destruct (bool_decide _); cbn [endpoints]; [exact Hs|].
    apply Forall_app_2; [exact Hs|]. apply List.Forall_cons; [|apply List.Forall_nil].
    right. exact Hp.
  - apply Forall_forall. intros e He. left. exact He.
Qed.

(** ** The calls of a method named POST *)

(** The key of an endpoint without tags. *)
Definition callKey (m p file : string) : string :=
  strings.ToUpper m +:+ " " +:+ p +:+ " " +:+ file +:+ " " +:+ "".

Lemma endpointKey_noTags h e :
  Tags e = None -> endpointKey h e = callKey (Method e) (Path e) (SourceFile e).
Proof. intros H. unfold endpointKey, callKey. rewrite H. reflexivity. Qed.

(** [add] on an endpoint of the route-call recogniser. *)
Lemma addWithHeaders_call f st :
  callCandidate f ->
  let e := f (Some (List.length (heap st))) in
  let k := callKey (Method e) (Path e) (SourceFile e) in
  addWithHeaders f st
  = if bool_decide (k ∈ seen st)
    then mkState (heap st ++ [MapObj ∅]) (seen st) (endpoints st)
    else mkState (heap st ++ [MapObj ∅]) ({[ k ]} ∪ seen st) (endpoints st ++ [e]).
Proof.
  intros Hf e k. unfold addWithHeaders, alloc.
  destruct (Hf (Some (List.length (heap st)))) as (Hm & Ht & Hp & Hn). fold e in Hm, Ht, Hp, Hn.
  fold e. rewrite (add_candidate _ _ Hm Ht). cbn zeta.
  rewrite (isValidEndpointPath_prefix _ Hp). cbn [negb heap seen endpoints].
  rewrite (endpointKey_noTags _ e Hn). fold k. reflexivity.
Qed.

(** X14: for a call of a method named POST, the visitor of ScanDir adds at
    most one endpoint, and it is the REST endpoint of the verb branch: the
    branch that detects GraphQL paths runs after it, on the same key, so
    the endpoint of type GraphQL it builds is always dropped as a
    duplicate. *)
Theorem POST_call_adds_REST bodies file x args st :
  let n := CallExpr (SelectorExpr x "POST") args in
  let st' := (ScanDir_visit bodies file n st).2 in
  endpoints st' = endpoints st
  \/ exists p hdr,
       pathLiteral args = Some p
       /\ endpoints st'
          = endpoints st
            ++ [restEndpoint "POST" p file (guessHandlerName n)
                  (bodyOf bodies (guessHandlerName n)) hdr].
Proof.
  intros n st'. unfold st', ScanDir_visit, n. cbn [snd]. fold n.
  rewrite (handleFuncBranch_other "Handle") by reflexivity.
  rewrite (handleFuncBranch_other "HandleFunc") by reflexivity.
  rewrite methodsBranch_other by reflexivity.
  unfold postBranch, verbBranch.
  replace (isVerb "POST") with true by (vm_compute; reflexivity).
  cbn [String.eqb Ascii.eqb Bool.eqb]. cbv iota.
  destruct (pathLiteral args) as [p|] eqn:Ep; [|left; reflexivity].
  pose proof (pathLiteral_Some _ _ Ep) as Hp.
  assert (Hpost : methodOK "POST") by (apply in_verbSet_methodOK; reflexivity).
  set (e1 := restEndpoint (strings.ToUpper "POST") p file (guessHandlerName n)
               (bodyOf bodies (guessHandlerName n))).
  assert (H1 : callCandidate e1) by (apply restEndpoint_candidate; assumption).
  pose proof (addWithHeaders_call e1 st H1) as E1. cbn zeta in E1.
  set (k := callKey "POST" p file).
  change (callKey _ _ _) with k in E1.
  assert (Hk : k ∈ seen (addWithHeaders e1 st)).
  { rewrite E1. destruct (bool_decide (k ∈ seen st)) eqn:E; cbn [seen].
    - apply bool_decide_eq_true_1 in E. exact E.
    - set_solver. }
  assert (H2 : forall f, callCandidate f ->
    (forall hdr, Method (f hdr) = "POST" /\ Path (f hdr) = p /\ SourceFile (f hdr) = file) ->
    endpoints (addWithHeaders f (addWithHeaders e1 st)) = endpoints (addWithHeaders e1 st)).
  { intros f Hf Hkey. rewrite (addWithHeaders_call f _ Hf). cbn zeta.
    destruct (Hkey (Some (List.length (heap (addWithHeaders e1 st))))) as (-> & -> & ->).
    fold k. rewrite bool_decide_eq_true_2 by exact Hk. reflexivity. }
  assert (E2 : endpoints (addWithHeaders e1 st) = endpoints st
               \/ endpoints (addWithHeaders e1 st)
                  = endpoints st ++ [e1 (Some (List.length (heap st)))]).
  { rewrite E1. destruct (bool_decide (k ∈ seen st)); [left|right]; reflexivity. }
  destruct (_ || _).
  - rewrite H2.
    + destruct E2 as [E2|E2]; [left; exact E2|right]. exists p. eexists. split; [reflexivity|exact E2].
    + intros hdr. cbn. repeat split; [exact Hpost|right; reflexivity|exact Hp].
    + intros hdr. repeat split.
  - rewrite H2.
    + destruct E2 as [E2|E2]; [left; exact E2|right]. exists p. eexists. split; [reflexivity|exact E2].
    + apply restEndpoint_candidate; assumption.
    + intros hdr. repeat split.
Qed.
